(** * Firmware retraction controller (fwretract.cpp)

    A shallow embedding of [FWRetract::reset] and [FWRetract::retract]
    together with the parts of the motion pipeline they talk to, and the
    properties of the controller stated over that embedding.

    Numbers.  The firmware computes on C [float].  A [float] here is an
    IEEE 754 binary32 value ([spec_float] at precision 24 and maximal
    exponent 128): every sum, difference, product and quotient is rounded
    once, to nearest with ties to even, and infinities, signed zeros and
    NaN behave as in the standard (NaN payloads are not kept).  No two
    operations are fused and none is carried at a higher precision.  The
    [double] literals of the source ([1.0], [0.0], [0.01]) are taken at
    single precision: on the 8-bit targets [double] is [float], and
    elsewhere the quotient of line 132 rounded to [float] is the
    single-precision quotient and the comparison of line 125 gives the same
    answer on every [float].

    Arrays.  [retracted], [retracted_swap] and [planner.e_factor] are C
    arrays indexed by the active extruder.  They are lists here; an access
    outside the list is undefined in C and makes the embedded operation
    fail ([None]).  The position vectors are indexed by the four axis
    constants only and are records. *)

From Stdlib Require Import ZArith QArith Bool Lia SpecFloat.
From stdpp Require Import base option list.

(** ** Numbers *)

(** A C [float]. *)
Definition f32 : Set := spec_float.

Definition f32_add : f32 -> f32 -> f32 := SFadd 24 128.
Definition f32_sub : f32 -> f32 -> f32 := SFsub 24 128.
Definition f32_mul : f32 -> f32 -> f32 := SFmul 24 128.
Definition f32_div : f32 -> f32 -> f32 := SFdiv 24 128.

Declare Scope f32_scope.
Delimit Scope f32_scope with f32.
Notation "x + y" := (f32_add x y) : f32_scope.
Notation "x - y" := (f32_sub x y) : f32_scope.
Notation "x * y" := (f32_mul x y) : f32_scope.
Notation "x / y" := (f32_div x y) : f32_scope.

(** The [float] nearest to an integer, and to a decimal literal written
    as a fraction of two small integers. *)
Definition f32_of_Z (z : Z) : f32 := binary_normalize 24 128 z 0 false.
Definition f32_ratio (n d : Z) : f32 := (f32_of_Z n / f32_of_Z d)%f32.

(** The literals of the source: [0.0], [1.0] and [0.01]. *)
Definition f32_zero : f32 := S754_zero false.
Definition f32_one : f32 := f32_of_Z 1.
Definition hundredth : f32 := f32_ratio 1 100.

(** [a < b] and [a <= b] on floats; false when either is NaN. *)
Definition f32_ltb (a b : f32) : bool := SFltb a b.
Definition f32_leb (a b : f32) : bool := SFleb a b.

(** [x == 0.0]: true of both zeros, false of NaN. *)
Definition f32_is_zero (x : f32) : bool := SFeqb x f32_zero.

(** The truth value of a float: [if (x)] is taken when [x] does not
    compare equal to zero. *)
Definition f32_truthy (x : f32) : bool := negb (f32_is_zero x).

(** Neither an infinity nor NaN. *)
Definition f32_finite (x : f32) : bool :=
  match x with
  | S754_zero _ | S754_finite _ _ _ => true
  | S754_infinity _ | S754_nan => false
  end.

(** The number a finite float stands for. *)
Definition f32_value (x : f32) : Q :=
  match x with
  | S754_finite s m e =>
      ((if s then - (Zpos m # 1) else Zpos m # 1) * Qpower 2 e)%Q
  | _ => 0%Q
  end.

(** [x] is finite and stands for the number [q]. *)
Definition exactly (x : f32) (q : Q) : Prop :=
  f32_finite x = true /\ (f32_value x == q)%Q.

(** ** Positions *)

Inductive AxisEnum : Set := X_AXIS | Y_AXIS | Z_AXIS | E_AXIS.

(** A [float v[XYZE]] vector. *)
Record xyze : Type := XYZE { ax_x : f32; ax_y : f32; ax_z : f32; ax_e : f32 }.

Definition axis_get (p : xyze) (a : AxisEnum) : f32 :=
  match a with
  | X_AXIS => ax_x p
  | Y_AXIS => ax_y p
  | Z_AXIS => ax_z p
  | E_AXIS => ax_e p
  end.

Definition axis_set (p : xyze) (a : AxisEnum) (v : f32) : xyze :=
  match a with
  | X_AXIS => XYZE v (ax_y p) (ax_z p) (ax_e p)
  | Y_AXIS => XYZE (ax_x p) v (ax_z p) (ax_e p)
  | Z_AXIS => XYZE (ax_x p) (ax_y p) v (ax_e p)
  | E_AXIS => XYZE (ax_x p) (ax_y p) (ax_z p) v
  end.

(** ** Compile-time configuration *)

(** Modelled from the spec: the macros of the configuration headers
    ([EXTRUDERS] and the [RETRACT_*] defaults) are not part of
    fwretract.cpp; they are the "compiled-in defaults" of the spec and are
    taken as parameters. *)
Record Build : Type := mkBuild {
  EXTRUDERS : nat;
  RETRACT_LENGTH : f32;
  RETRACT_FEEDRATE : f32;
  RETRACT_ZLIFT : f32;
  RETRACT_RECOVER_LENGTH : f32;
  RETRACT_RECOVER_FEEDRATE : f32;
  RETRACT_LENGTH_SWAP : f32;
  RETRACT_RECOVER_LENGTH_SWAP : f32;
  RETRACT_RECOVER_FEEDRATE_SWAP : f32
}.

(** [#if EXTRUDERS > 1] *)
Definition multi_extruder (B : Build) : bool := 1 <? EXTRUDERS B.

(** ** The controller's data *)

(** The configuration members of [FWRetract] (M207, M208, M209). *)
Record Settings : Type := mkSettings {
  autoretract_enabled : bool;
  retract_length : f32;
  retract_feedrate_mm_s : f32;
  retract_zlift : f32;
  retract_recover_length : f32;
  retract_recover_feedrate_mm_s : f32;
  swap_retract_length : f32;
  swap_retract_recover_length : f32;
  swap_retract_recover_feedrate_mm_s : f32
}.

(** All of [FWRetract]: the settings, the two per-extruder flag arrays and
    [hop_amount], the function-local static of [retract]. *)
Record FWRetract : Type := mkFWRetract {
  settings : Settings;
  retracted : list bool;
  retracted_swap : list bool;
  hop_amount : f32
}.

(** ** The motion pipeline *)

(** One queued move: where the planner stood when it was queued, where it
    goes, at which feedrate and for which extruder. *)
Record block_t : Type := mkBlock {
  blk_from : xyze;
  blk_to : xyze;
  blk_feedrate : f32;
  blk_extruder : nat
}.

Record Planner : Type := mkPlanner {
  e_factor : list f32;
  max_feedrate_mm_s : xyze;
  position : xyze;
  block_buffer : list block_t
}.

(** Everything [retract] reads or writes. [stepper_done] holds the moves
    the stepper has taken out of the planner's buffer, oldest first. *)
Record Machine : Type := mkMachine {
  fwretract : FWRetract;
  active_extruder : nat;
  feedrate_mm_s : f32;
  current_position : xyze;
  destination : xyze;
  planner : Planner;
  stepper_done : list block_t
}.

(** Every move handed to the planner so far, oldest first. *)
Definition issued (m : Machine) : list block_t :=
  stepper_done m ++ block_buffer (planner m).

(** Displacement of a move along one axis, as a number; meant for moves
    between finite positions. *)
Definition displacement (a : AxisEnum) (b : block_t) : Q :=
  (f32_value (axis_get (blk_to b) a) - f32_value (axis_get (blk_from b) a))%Q.

(** A move that stands still along one axis. *)
Definition still (a : AxisEnum) (b : block_t) : Prop :=
  axis_get (blk_from b) a = axis_get (blk_to b) a.

(** ** Field updates *)

Definition with_fwretract (f : FWRetract -> FWRetract) (m : Machine) : Machine :=
  mkMachine (f (fwretract m)) (active_extruder m) (feedrate_mm_s m)
            (current_position m) (destination m) (planner m) (stepper_done m).

Definition with_feedrate (v : f32) (m : Machine) : Machine :=
  mkMachine (fwretract m) (active_extruder m) v
            (current_position m) (destination m) (planner m) (stepper_done m).

Definition with_current (p : xyze) (m : Machine) : Machine :=
  mkMachine (fwretract m) (active_extruder m) (feedrate_mm_s m)
            p (destination m) (planner m) (stepper_done m).

Definition with_destination (p : xyze) (m : Machine) : Machine :=
  mkMachine (fwretract m) (active_extruder m) (feedrate_mm_s m)
            (current_position m) p (planner m) (stepper_done m).

Definition with_planner (f : Planner -> Planner) (m : Machine) : Machine :=
  mkMachine (fwretract m) (active_extruder m) (feedrate_mm_s m)
            (current_position m) (destination m) (f (planner m)) (stepper_done m).

Definition with_settings (s : Settings) (fw : FWRetract) : FWRetract :=
  mkFWRetract s (retracted fw) (retracted_swap fw) (hop_amount fw).

Definition with_retracted (l : list bool) (fw : FWRetract) : FWRetract :=
  mkFWRetract (settings fw) l (retracted_swap fw) (hop_amount fw).

Definition with_retracted_swap (l : list bool) (fw : FWRetract) : FWRetract :=
  mkFWRetract (settings fw) (retracted fw) l (hop_amount fw).

Definition with_hop_amount (h : f32) (fw : FWRetract) : FWRetract :=
  mkFWRetract (settings fw) (retracted fw) (retracted_swap fw) h.

Definition with_position (p : xyze) (pl : Planner) : Planner :=
  mkPlanner (e_factor pl) (max_feedrate_mm_s pl) p (block_buffer pl).

Definition with_block_buffer (bs : list block_t) (pl : Planner) : Planner :=
  mkPlanner (e_factor pl) (max_feedrate_mm_s pl) (position pl) bs.

(** ** Commands: state passing with failure *)

(** A command runs on a machine and either fails (an array access outside
    its bounds) or returns a value and the machine it leaves. *)
Definition Cmd (A : Type) : Type := Machine -> option (A * Machine).

#[export] Instance Cmd_ret : MRet Cmd := fun A a m => Some (a, m).

#[export] Instance Cmd_bind : MBind Cmd := fun A B k c m =>
  match c m with
  | Some (a, m') => k a m'
  | None => None
  end.

Definition gets {A : Type} (f : Machine -> A) : Cmd A := fun m => Some (f m, m).

Definition modify (f : Machine -> Machine) : Cmd unit := fun m => Some (tt, f m).

Definition fail {A : Type} : Cmd A := fun _ => None.

Definition cfg (m : Machine) : Settings := settings (fwretract m).

(** [a[i]] as an rvalue. *)
Definition array_read {A : Type} (arr : Machine -> list A) (i : nat) : Cmd A :=
  fun m => match arr m !! i with
           | Some v => Some (v, m)
           | None => None
           end.

(** [a[i] = v]. *)
Definition array_write {A : Type} (arr : Machine -> list A)
    (put : list A -> Machine -> Machine) (i : nat) (v : A) : Cmd unit :=
  fun m => match arr m !! i with
           | Some _ => Some (tt, put (<[i:=v]> (arr m)) m)
           | None => None
           end.

Definition retracted_of (m : Machine) : list bool := retracted (fwretract m).
Definition retracted_swap_of (m : Machine) : list bool := retracted_swap (fwretract m).
Definition hop_of (m : Machine) : f32 := hop_amount (fwretract m).

Definition put_retracted (l : list bool) : Machine -> Machine :=
  with_fwretract (with_retracted l).
Definition put_retracted_swap (l : list bool) : Machine -> Machine :=
  with_fwretract (with_retracted_swap l).
Definition put_hop_amount (h : f32) : Machine -> Machine :=
  with_fwretract (with_hop_amount h).

(** ** The collaborators, at their interface *)

(** Modelled from the spec: [set_destination_from_current] is not in
    fwretract.cpp.  "Record the current position as the move destination
    baseline." *)
Definition set_destination_from_current : Cmd unit :=
  modify (fun m => with_destination (current_position m) m).

(** Modelled from the spec: [stepper.synchronize] is not in fwretract.cpp.
    The barrier returns once "all previously queued moves" have completed:
    the planner's buffer is empty and its moves are with the stepper. *)
Definition stepper_synchronize : Cmd unit :=
  modify (fun m =>
    mkMachine (fwretract m) (active_extruder m) (feedrate_mm_s m)
              (current_position m) (destination m)
              (with_block_buffer [] (planner m))
              (stepper_done m ++ block_buffer (planner m))).

(** Modelled from the spec: [sync_plan_position_e] is not in fwretract.cpp.
    A position redefinition of the filament axis: the planner takes the
    tracker's E coordinate as its own, and nothing moves. *)
Definition sync_plan_position_e : Cmd unit :=
  modify (fun m =>
    with_planner (fun pl =>
      with_position (axis_set (position pl) E_AXIS
                       (axis_get (current_position m) E_AXIS)) pl) m).

(** Modelled from the spec: the macro [SYNC_PLAN_POSITION_KINEMATIC] is not
    in fwretract.cpp.  A position redefinition of all axes: the planner
    takes the tracker's current position as its own, and nothing moves. *)
Definition SYNC_PLAN_POSITION_KINEMATIC : Cmd unit :=
  modify (fun m => with_planner (with_position (current_position m)) m).

(** Modelled from the spec: [prepare_move_to_destination] is not in
    fwretract.cpp.  "Issue a move to the destination": one move is queued
    from where the planner stands to [destination] at [feedrate_mm_s] for
    the active extruder, the planner then stands at the destination, and
    the tracker's current position becomes the destination.  The motion
    collaborators "never reject a well-formed move". *)
Definition prepare_move_to_destination : Cmd unit :=
  modify (fun m =>
    let pl := planner m in
    let b := mkBlock (position pl) (destination m) (feedrate_mm_s m)
                     (active_extruder m) in
    mkMachine (fwretract m) (active_extruder m) (feedrate_mm_s m)
              (destination m) (destination m)
              (mkPlanner (e_factor pl) (max_feedrate_mm_s pl) (destination m)
                         (block_buffer pl ++ [b]))
              (stepper_done m)).

(** [current_position[a] = f (current_position[a])], for [+=] and [-=]. *)
Definition update_current (a : AxisEnum) (f : f32 -> f32) : Cmd unit :=
  modify (fun m =>
    with_current (axis_set (current_position m) a
                    (f (axis_get (current_position m) a))) m).

(** ** [FWRetract::reset] *)

(** The nine assignments at the head of [reset]. *)
Definition reset_settings (B : Build) : Settings :=
  mkSettings false
             (RETRACT_LENGTH B)
             (RETRACT_FEEDRATE B)
             (RETRACT_ZLIFT B)
             (RETRACT_RECOVER_LENGTH B)
             (RETRACT_RECOVER_FEEDRATE B)
             (RETRACT_LENGTH_SWAP B)
             (RETRACT_RECOVER_LENGTH_SWAP B)
             (RETRACT_RECOVER_FEEDRATE_SWAP B).

(** [for (uint8_t i = first; i < bound; ++i) body(i)].  The index is eight
    bits wide and wraps at 256.  [fuel] is the number of times the
    condition may be tested; a loop that needs more does not return
    ([None]). *)
Fixpoint for_u8 (fuel : nat) (i bound : nat) (body : nat -> Cmd unit) : Cmd unit :=
  match fuel with
  | O => fail
  | S fuel' =>
      if i <? bound
      then body i;; for_u8 fuel' (S i mod 256) bound body
      else mret tt
  end.

(** One round of the loop in [reset]. *)
Definition reset_extruder (B : Build) (i : nat) : Cmd unit :=
  array_write retracted_of put_retracted i false;;
  if multi_extruder B
  then array_write retracted_swap_of put_retracted_swap i false
  else mret tt.

(** [reset()].  The loop tests its condition at most 257 times when it
    ends at all. *)
Definition reset (B : Build) : Cmd unit :=
  modify (with_fwretract (with_settings (reset_settings B)));;
  for_u8 257 0 (EXTRUDERS B) (reset_extruder B).

(** ** [FWRetract::retract] *)

(** The retract branch, lines 134 to 151. *)
Definition retract_branch (has_zhop swapping : bool) (renormalize : f32) : Cmd unit :=
  feedrate ← gets (fun m => retract_feedrate_mm_s (cfg m));
  modify (with_feedrate feedrate);;
  len ← gets (fun m => if swapping then swap_retract_length (cfg m)
                       else retract_length (cfg m));
  update_current E_AXIS (fun e => e + len * renormalize)%f32;;
  sync_plan_position_e;;
  prepare_move_to_destination;;
  hop ← gets hop_of;
  if has_zhop && negb (f32_truthy hop) then
    zlift ← gets (fun m => retract_zlift (cfg m));
    modify (put_hop_amount (hop + zlift)%f32);;
    zmax ← gets (fun m => axis_get (max_feedrate_mm_s (planner m)) Z_AXIS);
    modify (with_feedrate zmax);;
    update_current Z_AXIS (fun z => z - zlift)%f32;;
    SYNC_PLAN_POSITION_KINEMATIC;;
    prepare_move_to_destination
  else mret tt.

(** The recover branch, lines 152 to 169. *)
Definition recover_branch (swapping : bool) (renormalize : f32) : Cmd unit :=
  hop ← gets hop_of;
  (if f32_truthy hop then
     zlift ← gets (fun m => retract_zlift (cfg m));
     update_current Z_AXIS (fun z => z + zlift)%f32;;
     SYNC_PLAN_POSITION_KINEMATIC;;
     zmax ← gets (fun m => axis_get (max_feedrate_mm_s (planner m)) Z_AXIS);
     modify (with_feedrate zmax);;
     prepare_move_to_destination;;
     modify (put_hop_amount f32_zero)
   else mret tt);;
  feedrate ← gets (fun m => if swapping
                            then swap_retract_recover_feedrate_mm_s (cfg m)
                            else retract_recover_feedrate_mm_s (cfg m));
  modify (with_feedrate feedrate);;
  move_e ← gets (fun m =>
              if swapping
              then (swap_retract_length (cfg m) + swap_retract_recover_length (cfg m))%f32
              else (retract_length (cfg m) + retract_recover_length (cfg m))%f32);
  update_current E_AXIS (fun e => e - move_e * renormalize)%f32;;
  sync_plan_position_e;;
  prepare_move_to_destination.

(** An accepted transition, lines 125 to 178; [swapping] is the local
    variable as it stands after line 109. *)
Definition transition (B : Build) (retracting swapping : bool) : Cmd unit :=
  has_zhop ← gets (fun m => f32_ltb hundredth (retract_zlift (cfg m)));
  old_feedrate_mm_s ← gets feedrate_mm_s;
  set_destination_from_current;;
  stepper_synchronize;;
  ae ← gets active_extruder;
  factor ← array_read (fun m => e_factor (planner m)) ae;
  let renormalize := (f32_one / factor)%f32 in
  (if retracting
   then retract_branch has_zhop swapping renormalize
   else recover_branch swapping renormalize);;
  modify (with_feedrate old_feedrate_mm_s);;
  array_write retracted_of put_retracted ae retracting;;
  if multi_extruder B && swapping
  then array_write retracted_swap_of put_retracted_swap ae retracting
  else mret tt.

(** What lines 98 to 109 decide: the call returns at once, or it goes on
    with the local variable [swapping] holding the given value. *)
Inductive Verdict : Set :=
  | Suppressed
  | Accepted (swapping : bool).

(** Lines 98 to 109: the two guards and the recover priority rule.  With
    one extruder the function has no second parameter and its local
    [swapping] is the constant [false]; the argument is then ignored. *)
Definition verdict (B : Build) (retracting swapping : bool) : Cmd Verdict :=
  ae ← gets active_extruder;
  is_retracted ← array_read retracted_of ae;
  if Bool.eqb is_retracted retracting then mret Suppressed else
  if multi_extruder B then
    again ← (if swapping return Cmd bool
             then is_swapped ← array_read retracted_swap_of ae;
                  mret (Bool.eqb is_swapped retracting)
             else mret false);
    if (again : bool) then mret Suppressed else
    swapping' ← (if negb retracting return Cmd bool
                 then array_read retracted_swap_of ae
                 else mret swapping);
    mret (Accepted swapping')
  else
    mret (Accepted false).

(** [retract(retracting, swapping)]. *)
Definition retract (B : Build) (retracting swapping : bool) : Cmd unit :=
  v ← verdict B retracting swapping;
  match v with
  | Suppressed => mret tt
  | Accepted swapping' => transition B retracting swapping'
  end.

(** ** Accepted transitions in closed form *)

(** Whether an accepted retract lifts the carriage: line 144. *)
Definition hops (m : Machine) : bool :=
  f32_ltb hundredth (retract_zlift (cfg m)) && negb (f32_truthy (hop_of m)).

(** The filament move of an accepted retract: from the faux E position
    back to the current one. *)
Definition retract_e_move (swapping : bool) (factor : f32) (m : Machine) : block_t :=
  let cur := current_position m in
  let len := if swapping then swap_retract_length (cfg m) else retract_length (cfg m) in
  mkBlock (axis_set (position (planner m)) E_AXIS
             (axis_get cur E_AXIS + len * (f32_one / factor))%f32)
          cur (retract_feedrate_mm_s (cfg m)) (active_extruder m).

(** The Z move of a hop: from the pretended lower position up to the
    current one. *)
Definition hop_move (m : Machine) : block_t :=
  let cur := current_position m in
  mkBlock (axis_set cur Z_AXIS (axis_get cur Z_AXIS - retract_zlift (cfg m))%f32)
          cur (axis_get (max_feedrate_mm_s (planner m)) Z_AXIS)
          (active_extruder m).

(** The Z move that undoes a hop: from the pretended higher position
    down to the current one. *)
Definition hop_undo_move (m : Machine) : block_t :=
  let cur := current_position m in
  mkBlock (axis_set cur Z_AXIS (axis_get cur Z_AXIS + retract_zlift (cfg m))%f32)
          cur (axis_get (max_feedrate_mm_s (planner m)) Z_AXIS)
          (active_extruder m).

(** The filament move of an accepted recover. *)
Definition recover_e_move (swapping : bool) (factor : f32) (m : Machine) : block_t :=
  let cur := current_position m in
  let move_e :=
    if swapping
    then (swap_retract_length (cfg m) + swap_retract_recover_length (cfg m))%f32
    else (retract_length (cfg m) + retract_recover_length (cfg m))%f32 in
  mkBlock (axis_set (if f32_truthy (hop_of m) then cur else position (planner m))
             E_AXIS (axis_get cur E_AXIS - move_e * (f32_one / factor))%f32)
          cur
          (if swapping then swap_retract_recover_feedrate_mm_s (cfg m)
           else retract_recover_feedrate_mm_s (cfg m))
          (active_extruder m).

(** The moves an accepted retract queues, in order. *)
Definition retract_moves (swapping : bool) (factor : f32) (m : Machine) : list block_t :=
  retract_e_move swapping factor m :: (if hops m then [hop_move m] else []).

(** The moves an accepted recover queues, in order. *)
Definition recover_moves (swapping : bool) (factor : f32) (m : Machine) : list block_t :=
  (if f32_truthy (hop_of m) then [hop_undo_move m] else [])
  ++ [recover_e_move swapping factor m].

(** The machine an accepted transition leaves. *)
Definition outcome (B : Build) (retracting swapping : bool) (factor : f32) (m : Machine) : Machine :=
  let ae := active_extruder m in
  mkMachine
    (mkFWRetract
       (cfg m)
       (<[ae:=retracting]> (retracted_of m))
       (if multi_extruder B && swapping
        then <[ae:=retracting]> (retracted_swap_of m)
        else retracted_swap_of m)
       (if retracting
        then (if hops m then (hop_of m + retract_zlift (cfg m))%f32 else hop_of m)
        else (if f32_truthy (hop_of m) then f32_zero else hop_of m)))
    ae
    (feedrate_mm_s m)
    (current_position m)
    (current_position m)
    (mkPlanner (e_factor (planner m)) (max_feedrate_mm_s (planner m))
               (current_position m)
               (if retracting then retract_moves swapping factor m
                else recover_moves swapping factor m))
    (issued m).

(** The arrays have their declared size and the active extruder is one
    of them. *)
Definition well_formed (B : Build) (m : Machine) : Prop :=
  active_extruder m < EXTRUDERS B /\
  length (retracted_of m) = EXTRUDERS B /\
  (multi_extruder B = true -> length (retracted_swap_of m) = EXTRUDERS B) /\
  length (e_factor (planner m)) = EXTRUDERS B.

(** The swap flag is only ever set on a retracted extruder.  The flags
    start out this way and [retract] keeps them so; with one extruder
    there is no swap flag. *)
Definition swap_within_retracted (B : Build) (m : Machine) : Prop :=
  multi_extruder B = true ->
  forall i, retracted_swap_of m !! i = Some true -> retracted_of m !! i = Some true.

(** What may happen between two calls of [retract] during operation: a tool
    change, travel, a test poking the flags.  The settings are read-only
    then, and [hop_amount] is local to [retract]. *)
Definition elsewhere (m m' : Machine) : Prop :=
  cfg m' = cfg m /\ hop_of m' = hop_of m.

(** Runs made of retract requests and of steps taken elsewhere, with no
    recover request among them. *)
Inductive retracts_only (B : Build) : Machine -> Machine -> Prop :=
  | retracts_only_done (m : Machine) :
      retracts_only B m m
  | retracts_only_call (m m1 m2 : Machine) (swapping : bool) :
      retract B true swapping m = Some (tt, m1) ->
      retracts_only B m1 m2 ->
      retracts_only B m m2
  | retracts_only_elsewhere (m m1 m2 : Machine) :
      elsewhere m m1 ->
      retracts_only B m1 m2 ->
      retracts_only B m m2.

(** ** Machines to run on *)

(** The defaults of the spec's scenario, for two extruders: 3 mm at
    45 mm/s, a lift of 0.4 mm, no extra recover length, 13 mm for a swap. *)
Definition two_extruders : Build :=
  mkBuild 2 (f32_of_Z 3) (f32_of_Z 45) (f32_ratio 2 5) f32_zero (f32_of_Z 45)
          (f32_of_Z 13) f32_zero (f32_of_Z 8).

Definition at_xyze (x y z e : Z) : xyze :=
  XYZE (f32_of_Z x) (f32_of_Z y) (f32_of_Z z) (f32_of_Z e).

Definition parked : xyze := at_xyze 10 20 5 100.

(** A machine at rest with the given flags, pending hop and active
    extruder; extruder 0 runs at full flow, extruder 1 at half flow. *)
Definition bench (B : Build) (flags swaps : list bool) (hop : f32) (ae : nat) : Machine :=
  mkMachine (mkFWRetract (reset_settings B) flags swaps hop)
            ae (f32_of_Z 60) parked parked
            (mkPlanner (take (EXTRUDERS B) [f32_one; f32_ratio 1 2])
                       (at_xyze 500 500 12 25) parked [])
            [].

(** Both extruders recovered, no hop pending. *)
Definition fresh (B : Build) : Machine :=
  bench B [false; false] [false; false] f32_zero 0.

(** The fresh machine with the carriage elsewhere. *)
Definition fresh_at (pos : xyze) : Machine :=
  mkMachine (fwretract (fresh two_extruders)) 0 (f32_of_Z 60) pos pos
            (mkPlanner [f32_one; f32_ratio 1 2] (at_xyze 500 500 12 25) pos [])
            [].

(** The fresh machine with extruder 0 at the given flow factor. *)
Definition flowing (f : f32) : Machine :=
  with_planner
    (fun _ => mkPlanner [f; f32_ratio 1 2] (at_xyze 500 500 12 25) parked [])
    (fresh two_extruders).

(** Extruder 0 after a plain retract with its hop. *)
Definition plain_retracted : Machine :=
  bench two_extruders [true; false] [false; false] (f32_ratio 2 5) 0.

(** Extruder 0 after a swap retract with its hop. *)
Definition swap_retracted : Machine :=
  bench two_extruders [true; false] [true; false] (f32_ratio 2 5) 0.

(** A tool change, as far as [retract] can tell. *)
Definition select_extruder (e : nat) (m : Machine) : Machine :=
  mkMachine (fwretract m) e (feedrate_mm_s m) (current_position m)
            (destination m) (planner m) (stepper_done m).

(** The fresh machine after a plain retract on extruder 0, and after a
    tool change and a plain retract on extruder 1. *)
Definition first_retracted : Machine :=
  outcome two_extruders true false f32_one (fresh two_extruders).
Definition both_retracted : Machine :=
  outcome two_extruders true false (f32_ratio 1 2)
    (select_extruder 1 first_retracted).

(** ** Operation *)

(** Modelled from the spec: the configure-retract command (M207 Z) is not
    in fwretract.cpp; it "sets retractZLift" and nothing else of what
    [retract] reads. *)
Definition configure_zlift (z : f32) (m : Machine) : Machine :=
  with_fwretract
    (with_settings
       (mkSettings (autoretract_enabled (cfg m)) (retract_length (cfg m))
          (retract_feedrate_mm_s (cfg m)) z (retract_recover_length (cfg m))
          (retract_recover_feedrate_mm_s (cfg m)) (swap_retract_length (cfg m))
          (swap_retract_recover_length (cfg m))
          (swap_retract_recover_feedrate_mm_s (cfg m)))) m.

(** What the firmware does to the controller while it runs: configuration
    resets, retract and recover requests of either kind, and tool changes
    to an extruder that exists. *)
Inductive operates (B : Build) : Machine -> Machine -> Prop :=
  | operates_done (m : Machine) :
      operates B m m
  | operates_reset (m m1 m2 : Machine) :
      reset B m = Some (tt, m1) ->
      operates B m1 m2 ->
      operates B m m2
  | operates_retract (m m1 m2 : Machine) (retracting swapping : bool) :
      retract B retracting swapping m = Some (tt, m1) ->
      operates B m1 m2 ->
      operates B m m2
  | operates_tool_change (m m2 : Machine) (e : nat) :
      e < EXTRUDERS B ->
      operates B (select_extruder e m) m2 ->
      operates B m m2.

(** The two guards of lines 99 and 104 as a condition on the flags read. *)
Definition guarded (B : Build) (retracting swapping was_retracted was_swapped : bool) : bool :=
  Bool.eqb was_retracted retracting
  || (multi_extruder B && swapping && Bool.eqb was_swapped retracting).

(** ** Running commands in proofs *)

Lemma run_bind {A C : Type} (c : Cmd A) (k : A -> Cmd C) (m m' : Machine) (a : A) :
  c m = Some (a, m') -> (c ≫= k) m = k a m'.
Proof. intros H. unfold mbind, Cmd_bind. now rewrite H. Qed.

Lemma run_bind_fail {A C : Type} (c : Cmd A) (k : A -> Cmd C) (m : Machine) :
  c m = None -> (c ≫= k) m = None.
Proof. intros H. unfold mbind, Cmd_bind. now rewrite H. Qed.

Lemma run_array_read {A : Type} (arr : Machine -> list A) (i : nat) (m : Machine) (v : A) :
  arr m !! i = Some v -> array_read arr i m = Some (v, m).
Proof. intros H. unfold array_read. now rewrite H. Qed.

(** Unfold the command combinators down to the machine they produce. *)
Ltac run_cmd :=
  cbv beta iota zeta delta
    [mbind mret Cmd_bind Cmd_ret gets modify
     set_destination_from_current stepper_synchronize sync_plan_position_e
     SYNC_PLAN_POSITION_KINEMATIC prepare_move_to_destination update_current
     with_fwretract with_feedrate with_current with_destination with_planner
     with_settings with_retracted with_retracted_swap with_hop_amount
     with_position with_block_buffer put_retracted put_retracted_swap
     put_hop_amount retracted_of retracted_swap_of hop_of cfg andb negb];
  cbn [fwretract active_extruder feedrate_mm_s current_position destination
       planner stepper_done settings retracted retracted_swap hop_amount
       e_factor max_feedrate_mm_s position block_buffer
       axis_get axis_set ax_x ax_y ax_z ax_e].

(** The same on a machine given by its fields: the projections are taken
    on the way. *)
Ltac run_fields :=
  cbv beta iota zeta delta
    [mbind mret Cmd_bind Cmd_ret gets modify
     set_destination_from_current stepper_synchronize sync_plan_position_e
     SYNC_PLAN_POSITION_KINEMATIC prepare_move_to_destination update_current
     with_fwretract with_feedrate with_current with_destination with_planner
     with_settings with_retracted with_retracted_swap with_hop_amount
     with_position with_block_buffer put_retracted put_retracted_swap
     put_hop_amount retracted_of retracted_swap_of hop_of cfg andb negb
     fwretract active_extruder feedrate_mm_s current_position destination
     planner stepper_done settings retracted retracted_swap hop_amount
     e_factor max_feedrate_mm_s position block_buffer
     axis_get axis_set ax_x ax_y ax_z ax_e].

(** ** The guards *)

Section Guards.
Variable B : Build.

(** Line 99 alone decides a call whose direction the extruder already has. *)
Lemma verdict_same (m : Machine) (retracting swapping : bool) :
  retracted_of m !! active_extruder m = Some retracting ->
  verdict B retracting swapping m = Some (Suppressed, m).
Proof.
  intros H. unfold verdict.
  rewrite (run_bind _ _ m m (active_extruder m)) by reflexivity.
  rewrite (run_bind _ _ m m retracting) by now apply run_array_read.
  now rewrite Bool.eqb_reflx.
Qed.

(** Line 104 decides a swap call whose direction the swap flag already
    has, whatever the plain flag says. *)
Lemma verdict_swap_same (m : Machine) (retracting was : bool) :
  multi_extruder B = true ->
  retracted_of m !! active_extruder m = Some was ->
  retracted_swap_of m !! active_extruder m = Some retracting ->
  verdict B retracting true m = Some (Suppressed, m).
Proof.
  intros Hm Hr Hs. unfold verdict, array_read.
  cbv [retracted_of retracted_swap_of] in Hr, Hs.
  run_cmd. rewrite Hr.
  destruct (Bool.eqb was retracting); [reflexivity|].
  rewrite Hm, Hs. now rewrite Bool.eqb_reflx.
Qed.

(** What a verdict tells about the machine it was reached on. *)
Lemma verdict_inv (m m' : Machine) (retracting swapping : bool) (v : Verdict) :
  verdict B retracting swapping m = Some (v, m') ->
  m' = m /\
  exists was, retracted_of m !! active_extruder m = Some was /\
    match v with
    | Suppressed =>
        was = retracting \/
        (multi_extruder B = true /\ swapping = true /\
         retracted_swap_of m !! active_extruder m = Some retracting)
    | Accepted sw =>
        was = negb retracting /\
        (multi_extruder B = false -> sw = false) /\
        (multi_extruder B = true ->
         if retracting
         then sw = swapping /\
              (swapping = true ->
               retracted_swap_of m !! active_extruder m = Some false)
         else retracted_swap_of m !! active_extruder m = Some sw /\
              (swapping = true -> sw = true))
    end.
Proof.
  unfold verdict, array_read. run_cmd.
  destruct (_ !! _) as [was|] eqn:Hr; [|discriminate].
  destruct (multi_extruder B) eqn:Hm, swapping, retracting, was;
    cbn [Bool.eqb]; run_cmd;
    try destruct (retracted_swap (fwretract m) !! active_extruder m)
      as [[|]|] eqn:Hs;
    cbn [Bool.eqb]; run_cmd; try rewrite Hs; try discriminate;
    intros [= <- <-]; (split; [reflexivity|]);
    eexists; (split; [reflexivity|]); cbn [negb];
    intuition (discriminate || eauto).
Qed.

(** An accepted call with a swap to commit has a swap flag to write. *)
Lemma verdict_swap_slot (m : Machine) (retracting swapping sw : bool) :
  verdict B retracting swapping m = Some (Accepted sw, m) ->
  multi_extruder B && sw = true ->
  exists ws, retracted_swap_of m !! active_extruder m = Some ws.
Proof.
  intros Hv Hsw. apply verdict_inv in Hv as (_ & was & _ & _ & H1 & H2).
  destruct (multi_extruder B); [|discriminate]. cbn in Hsw. subst sw.
  specialize (H2 eq_refl). destruct retracting.
  - destruct H2 as [<- H2]. eauto.
  - destruct H2 as [H2 _]. eauto.
Qed.

End Guards.

(** ** What a call does *)

Section Outcome.
Variable B : Build.

Lemma transition_outcome (m : Machine) (retracting swapping was : bool) (factor : f32) :
  retracted_of m !! active_extruder m = Some was ->
  (multi_extruder B && swapping = true ->
   exists ws, retracted_swap_of m !! active_extruder m = Some ws) ->
  e_factor (planner m) !! active_extruder m = Some factor ->
  transition B retracting swapping m
  = Some (tt, outcome B retracting swapping factor m).
Proof.
  intros Hr Hs Hf.
  destruct m as [[cf rl sl hop] ae fr cur dst [ef mf pos buf] done].
  cbv [retracted_of retracted_swap_of fwretract retracted retracted_swap
       active_extruder planner e_factor] in Hr, Hs, Hf.
  unfold transition, outcome, retract_moves, recover_moves, hops,
    retract_e_move, hop_move, hop_undo_move, recover_e_move,
    retract_branch, recover_branch, array_read, array_write, issued.
  run_fields. rewrite Hf.
  destruct retracting; run_fields.
  - destruct (f32_ltb hundredth (retract_zlift cf)), (f32_truthy hop); run_fields;
      rewrite Hr; run_fields.
    all: destruct (multi_extruder B), swapping; run_fields; try reflexivity.
    all: destruct Hs as [ws Hs]; [reflexivity|]; rewrite Hs; reflexivity.
  - destruct (f32_truthy hop); run_fields; rewrite Hr; run_fields.
    all: destruct (multi_extruder B), swapping; run_fields; try reflexivity.
    all: destruct Hs as [ws Hs]; [reflexivity|]; rewrite Hs; reflexivity.
Qed.

(** A suppressed call returns at once. *)
Lemma retract_suppressed (m : Machine) (retracting swapping : bool) :
  verdict B retracting swapping m = Some (Suppressed, m) ->
  retract B retracting swapping m = Some (tt, m).
Proof. intros H. unfold retract. now rewrite (run_bind _ _ _ _ _ H). Qed.

(** An accepted call runs the transition to its end. *)
Lemma retract_accepted (m : Machine) (retracting swapping sw : bool) (factor : f32) :
  verdict B retracting swapping m = Some (Accepted sw, m) ->
  e_factor (planner m) !! active_extruder m = Some factor ->
  retract B retracting swapping m = Some (tt, outcome B retracting sw factor m).
Proof.
  intros Hv Hf. unfold retract. rewrite (run_bind _ _ _ _ _ Hv).
  destruct (verdict_inv B _ _ _ _ _ Hv) as (_ & was & Hr & _).
  eapply transition_outcome; eauto using verdict_swap_slot.
Qed.

(** The guards always reach a verdict, and leave the machine alone. *)
Lemma verdict_total (m : Machine) (retracting swapping : bool) :
  well_formed B m -> exists v, verdict B retracting swapping m = Some (v, m).
Proof.
  intros (Hae & Hr & Hs & _).
  destruct (lookup_lt_is_Some_2 (retracted_of m) (active_extruder m))
    as [was Hwas]; [lia|].
  unfold verdict, array_read. run_cmd.
  cbv [retracted_of] in Hwas. rewrite Hwas.
  destruct (Bool.eqb was retracting); [eauto|].
  destruct (multi_extruder B); [|eauto].
  destruct (lookup_lt_is_Some_2 (retracted_swap_of m) (active_extruder m))
    as [ws Hws]; [rewrite Hs by reflexivity; lia|].
  cbv [retracted_swap_of] in Hws.
  destruct swapping, retracting; run_cmd; rewrite ?Hws;
    try destruct (Bool.eqb ws _); run_cmd; rewrite ?Hws; eauto.
Qed.

(** [retract] returns on every well-formed machine. *)
Lemma retract_total (m : Machine) (retracting swapping : bool) :
  well_formed B m -> exists m', retract B retracting swapping m = Some (tt, m').
Proof.
  intros Hwf. destruct (verdict_total m retracting swapping Hwf) as [[|sw] Hv].
  - eauto using retract_suppressed.
  - destruct Hwf as (Hae & _ & _ & Hf).
    destruct (lookup_lt_is_Some_2 (e_factor (planner m)) (active_extruder m))
      as [f Hfac]; [lia|].
    eauto using retract_accepted.
Qed.

End Outcome.

(** ** The loop of [reset] *)

(** Clearing slot [i] extends the cleared range [S i .. bound) to
    [i .. bound). *)
Lemma cleared_range_step (l l' : list bool) (i bound k : nat) :
  i < bound -> i < length l ->
  l' !! k = (if (S i <=? k) && (k <? bound) then Some false
             else <[i:=false]> l !! k) ->
  l' !! k = (if (i <=? k) && (k <? bound) then Some false else l !! k).
Proof.
  intros Hi Hlen ->. destruct (decide (k = i)) as [->|Hne].
  - replace (S i <=? i) with false by (symmetry; apply Nat.leb_gt; lia).
    replace (i <=? i) with true by (symmetry; apply Nat.leb_le; lia).
    replace (i <? bound) with true by (symmetry; apply Nat.ltb_lt; lia).
    cbn. now apply list_lookup_insert_eq.
  - rewrite list_lookup_insert_ne by congruence.
    destruct (k <? bound); rewrite ?andb_false_r; [|reflexivity].
    rewrite !andb_true_r.
    destruct (S i <=? k) eqn:H1, (i <=? k) eqn:H2; try reflexivity.
    + apply Nat.leb_le in H1. apply Nat.leb_gt in H2. lia.
    + apply Nat.leb_gt in H1. apply Nat.leb_le in H2. lia.
Qed.

Lemma cleared_range_empty (l : list bool) (i bound k : nat) :
  bound <= i ->
  l !! k = (if (i <=? k) && (k <? bound) then Some false else l !! k).
Proof.
  intros Hi. destruct (i <=? k) eqn:H1, (k <? bound) eqn:H2; try reflexivity.
  apply Nat.leb_le in H1. apply Nat.ltb_lt in H2. lia.
Qed.

Section ResetLoop.
Variable B : Build.

Lemma reset_extruder_runs cf hop ae fr cur dst pl done (i : nat) (rl sl : list bool) :
  i < length rl ->
  (multi_extruder B = true -> i < length sl) ->
  reset_extruder B i (mkMachine (mkFWRetract cf rl sl hop) ae fr cur dst pl done)
  = Some (tt, mkMachine
                (mkFWRetract cf (<[i:=false]> rl)
                   (if multi_extruder B then <[i:=false]> sl else sl) hop)
                ae fr cur dst pl done).
Proof.
  intros Hrl Hsl.
  destruct (lookup_lt_is_Some_2 rl i Hrl) as [r0 Hr0].
  unfold reset_extruder, array_write. run_fields. rewrite Hr0.
  destruct (multi_extruder B); [|reflexivity].
  destruct (lookup_lt_is_Some_2 sl i (Hsl eq_refl)) as [s0 Hs0].
  run_fields. now rewrite Hs0.
Qed.

Lemma reset_loop cf hop ae fr cur dst pl done (fuel : nat) :
  forall (i : nat) (rl sl : list bool),
    EXTRUDERS B <= 255 ->
    length rl = EXTRUDERS B ->
    (multi_extruder B = true -> length sl = EXTRUDERS B) ->
    i <= EXTRUDERS B ->
    EXTRUDERS B - i < fuel ->
    exists rl' sl',
      for_u8 fuel i (EXTRUDERS B) (reset_extruder B)
        (mkMachine (mkFWRetract cf rl sl hop) ae fr cur dst pl done)
      = Some (tt, mkMachine (mkFWRetract cf rl' sl' hop) ae fr cur dst pl done) /\
      (forall k, rl' !! k =
                 if (i <=? k) && (k <? EXTRUDERS B) then Some false else rl !! k) /\
      (if multi_extruder B
       then forall k, sl' !! k =
                      if (i <=? k) && (k <? EXTRUDERS B) then Some false else sl !! k
       else sl' = sl).
Proof.
  induction fuel as [|fuel IH]; intros i rl sl Hb Hrl Hsl Hi Hfuel; [lia|].
  cbn [for_u8]. destruct (i <? EXTRUDERS B) eqn:Hlt.
  - apply Nat.ltb_lt in Hlt.
    assert (Hnext : S i mod 256 = S i) by (apply Nat.mod_small; lia).
    erewrite run_bind
      by (apply reset_extruder_runs; [|intros Hm; rewrite (Hsl Hm)]; lia).
    rewrite Hnext.
    destruct (IH (S i) (<[i:=false]> rl)
                (if multi_extruder B then <[i:=false]> sl else sl))
      as (rl' & sl' & Hrun & Hrl' & Hsl'); rewrite ?length_insert; auto; try lia.
    { intros Hm. rewrite Hm, length_insert. auto. }
    exists rl', sl'. split; [exact Hrun|]. split.
    + intros k. apply cleared_range_step; auto; lia.
    + destruct (multi_extruder B); [|exact Hsl'].
      intros k. apply cleared_range_step; auto. rewrite Hsl by reflexivity. lia.
  - apply Nat.ltb_ge in Hlt. exists rl, sl. split; [reflexivity|].
    split; [|destruct (multi_extruder B); [|reflexivity]];
      intros k; now apply cleared_range_empty.
Qed.

End ResetLoop.

(** ** Calls that pass the guards *)

Section Accepting.
Variable B : Build.

Lemma verdict_accept_single (m : Machine) (retracting swapping : bool) :
  multi_extruder B = false ->
  retracted_of m !! active_extruder m = Some (negb retracting) ->
  verdict B retracting swapping m = Some (Accepted false, m).
Proof.
  intros Hm Hr. unfold verdict, array_read. cbv [retracted_of] in Hr.
  run_cmd. rewrite Hr, Hm. now destruct retracting.
Qed.

Lemma verdict_accept_multi (m : Machine) (retracting swapping ws : bool) :
  multi_extruder B = true ->
  retracted_of m !! active_extruder m = Some (negb retracting) ->
  retracted_swap_of m !! active_extruder m = Some ws ->
  (swapping = true -> ws = negb retracting) ->
  verdict B retracting swapping m
  = Some (Accepted (if retracting then swapping else ws), m).
Proof.
  intros Hm Hr Hs Hsw. unfold verdict, array_read.
  cbv [retracted_of retracted_swap_of] in Hr, Hs.
  run_cmd. rewrite Hr, Hm.
  destruct retracting, swapping; try (rewrite (Hsw eq_refl) in *);
    cbn [negb Bool.eqb] in *; run_cmd; rewrite ?Hs;
    cbn [negb Bool.eqb]; run_cmd; rewrite ?Hs; reflexivity.
Qed.

End Accepting.

(** ** The machine left by an accepted call *)

Lemma issued_outcome (B : Build) (m : Machine) (retracting sw : bool) (f : f32) :
  issued (outcome B retracting sw f m)
  = issued m ++ (if retracting then retract_moves sw f m else recover_moves sw f m).
Proof. reflexivity. Qed.

Lemma outcome_retracted (B : Build) (m : Machine) (retracting sw was : bool) (f : f32) :
  retracted_of m !! active_extruder m = Some was ->
  retracted_of (outcome B retracting sw f m) !! active_extruder m = Some retracting.
Proof.
  intros H. unfold outcome, retracted_of at 1.
  cbn [fwretract retracted active_extruder].
  apply list_lookup_insert_eq. now apply lookup_lt_Some in H.
Qed.

Lemma outcome_retracted_swap (B : Build) (m : Machine) (retracting ws : bool) (f : f32) :
  multi_extruder B = true ->
  retracted_swap_of m !! active_extruder m = Some ws ->
  retracted_swap_of (outcome B retracting true f m) !! active_extruder m
  = Some retracting.
Proof.
  intros Hm H. unfold outcome, retracted_swap_of at 1.
  cbn [fwretract retracted_swap active_extruder]. rewrite Hm. cbn [andb].
  apply list_lookup_insert_eq. now apply lookup_lt_Some in H.
Qed.

(** Without a flow factor to read, the transition does not return. *)
Lemma transition_needs_factor (B : Build) (m : Machine) (retracting sw : bool) :
  e_factor (planner m) !! active_extruder m = None ->
  transition B retracting sw m = None.
Proof.
  intros Hf. destruct m as [[cf rl sl hop] ae fr cur dst [ef mf pos buf] done].
  cbv [fwretract active_extruder planner e_factor] in Hf.
  unfold transition, array_read. run_fields. now rewrite Hf.
Qed.

(** A call that returns was either suppressed or ran a whole transition. *)
Lemma retract_inv (B : Build) (m m' : Machine) (retracting swapping : bool) :
  retract B retracting swapping m = Some (tt, m') ->
  (verdict B retracting swapping m = Some (Suppressed, m) /\ m' = m) \/
  (exists sw f,
     verdict B retracting swapping m = Some (Accepted sw, m) /\
     e_factor (planner m) !! active_extruder m = Some f /\
     m' = outcome B retracting sw f m).
Proof.
  intros H.
  destruct (verdict B retracting swapping m) as [[v m1]|] eqn:Hv.
  - destruct (verdict_inv B _ _ _ _ _ Hv) as [-> _]. destruct v as [|sw].
    + left. split; [reflexivity|].
      rewrite (retract_suppressed B _ _ _ Hv) in H. now injection H as <-.
    + right. destruct (e_factor (planner m) !! active_extruder m) as [f|] eqn:Hf.
      * exists sw, f. repeat split.
        rewrite (retract_accepted B _ _ _ _ _ Hv Hf) in H. now injection H as <-.
      * unfold retract in H. rewrite (run_bind _ _ _ _ _ Hv) in H.
        now rewrite transition_needs_factor in H.
  - unfold retract in H. now rewrite (run_bind_fail _ _ _ Hv) in H.
Qed.

(** ** The flags stay consistent *)

Lemma retract_keeps_swap_within_retracted
    (B : Build) (m m' : Machine) (retracting swapping : bool) :
  retract B retracting swapping m = Some (tt, m') ->
  swap_within_retracted B m -> swap_within_retracted B m'.
Proof.
  intros H Inv. apply retract_inv in H as [[_ ->]|(sw & f & Hv & _ & ->)]; [exact Inv|].
  intros Hm i. specialize (Inv Hm i).
  destruct (verdict_inv B _ _ _ _ _ Hv) as (_ & was & Hr & -> & _ & Hsw).
  specialize (Hsw Hm).
  unfold outcome, retracted_of at 2, retracted_swap_of at 1.
  cbn [fwretract retracted retracted_swap active_extruder].
  rewrite Hm. cbn [andb].
  assert (Hlen : active_extruder m < length (retracted_of m))
    by (now apply lookup_lt_Some in Hr).
  destruct (decide (i = active_extruder m)) as [->|Hne].
  - rewrite list_lookup_insert_eq by exact Hlen.
    destruct retracting; [reflexivity|].
    destruct Hsw as [Hws _]. destruct sw.
    + rewrite list_lookup_insert_eq by (now apply lookup_lt_Some in Hws).
      discriminate.
    + rewrite Hws. discriminate.
  - rewrite list_lookup_insert_ne by congruence.
    destruct sw; [rewrite list_lookup_insert_ne by congruence|]; exact Inv.
Qed.

(** ** Facts about floats *)

Lemma hundredth_value : hundredth = S754_finite false 10737418 (-30).
Proof. vm_compute. reflexivity. Qed.

Lemma f32_truthy_false (x : f32) : f32_truthy x = false <-> f32_is_zero x = true.
Proof. unfold f32_truthy. apply negb_false_iff. Qed.

Lemma f32_truthy_true (x : f32) : f32_truthy x = true <-> f32_is_zero x = false.
Proof. unfold f32_truthy. apply negb_true_iff. Qed.

(** Only the two zeros compare equal to zero. *)
Lemma f32_is_zero_inv (x : f32) :
  f32_is_zero x = true -> exists s, x = S754_zero s.
Proof. destruct x as [s|s| |s m e]; try destruct s; try discriminate; eauto. Qed.

(** A lift above 0.01 is not zero. *)
Lemma f32_above_hundredth_truthy (z : f32) :
  f32_ltb hundredth z = true -> f32_truthy z = true.
Proof.
  rewrite hundredth_value.
  destruct z as [s|s| |s m e]; try destruct s; try discriminate; reflexivity.
Qed.

(** Zero plus a lift above 0.01 is that lift, with no rounding. *)
Lemma f32_add_zero_l (h z : f32) :
  f32_is_zero h = true -> f32_ltb hundredth z = true -> (h + z)%f32 = z.
Proof.
  intros Hh Hz. apply f32_is_zero_inv in Hh as [s ->].
  rewrite hundredth_value in Hz.
  destruct z as [sz|sz| |sz m e]; try destruct sz; try discriminate;
    destruct s; reflexivity.
Qed.

(** Both zeros compare alike. *)
Lemma f32_leb_zero_l (h z : f32) :
  f32_is_zero h = true -> f32_leb f32_zero z = true -> f32_leb h z = true.
Proof. intros Hh Hz. apply f32_is_zero_inv in Hh as [s ->]. exact Hz. Qed.

Lemma f32_leb_refl (z : f32) : f32_leb f32_zero z = true -> f32_leb z z = true.
Proof.
  destruct z as [s|s| |s m e]; try destruct s; try discriminate; intros _;
    try reflexivity; unfold f32_leb, SFleb, SFcompare;
    rewrite Z.compare_refl, Pos.compare_cont_refl; reflexivity.
Qed.

(** The displacement of a move between two positions known exactly. *)
Lemma displacement_between (a : AxisEnum) (b : block_t) (from to : Q) :
  exactly (axis_get (blk_from b) a) from ->
  exactly (axis_get (blk_to b) a) to ->
  (displacement a b == to - from)%Q.
Proof. intros [_ Hf] [_ Ht]. unfold displacement. now rewrite Hf, Ht. Qed.

(** ** The moves of a call *)

Lemma hop_move_still (m : Machine) :
  still X_AXIS (hop_move m) /\ still Y_AXIS (hop_move m) /\ still E_AXIS (hop_move m).
Proof. repeat split. Qed.

Lemma hop_undo_move_still (m : Machine) :
  still X_AXIS (hop_undo_move m) /\ still Y_AXIS (hop_undo_move m) /\
  still E_AXIS (hop_undo_move m).
Proof. repeat split. Qed.

Lemma recover_e_move_still_after_undo (sw : bool) (f : f32) (m : Machine) :
  f32_truthy (hop_of m) = true ->
  still X_AXIS (recover_e_move sw f m) /\ still Y_AXIS (recover_e_move sw f m) /\
  still Z_AXIS (recover_e_move sw f m).
Proof. intros H. unfold still, recover_e_move. rewrite H. repeat split. Qed.

(** The hop test of line 144, spelled out. *)
Lemma hops_true (m : Machine) :
  hops m = true <->
  f32_ltb hundredth (retract_zlift (cfg m)) = true /\ f32_is_zero (hop_of m) = true.
Proof.
  unfold hops. rewrite andb_true_iff, negb_true_iff, f32_truthy_false.
  reflexivity.
Qed.

(** ** The scenario of the spec *)

(** With a retract length of 3 mm at 45 mm/s and a lift of 0.4 mm,
    [retract(true, false)] queues a filament move of -3 mm at 45 mm/s and
    a Z move up at the Z axis' maximum feedrate, and leaves the extruder
    retracted with a hop of 0.4 mm pending.  The float nearest to 0.4 is
    a little above it, and the faux Z of line 147 is rounded once more:
    the Z move is one of 838861/2097152 mm. *)
Example scenario_retract :
  exists m' emove zmove,
    retract two_extruders true false (fresh two_extruders) = Some (tt, m') /\
    issued m' = [emove; zmove] /\
    (displacement E_AXIS emove == -3)%Q /\ blk_feedrate emove = f32_of_Z 45 /\
    still Z_AXIS emove /\
    (displacement Z_AXIS zmove == 838861 # 2097152)%Q /\
    blk_feedrate zmove = f32_of_Z 12 /\
    still E_AXIS zmove /\
    retracted_of m' = [true; false] /\
    hop_of m' = f32_ratio 2 5 /\
    (f32_value (hop_of m') == 13421773 # 33554432)%Q /\
    feedrate_mm_s m' = f32_of_Z 60 /\
    current_position m' = parked.
Proof.
  do 3 eexists. split; [vm_compute; reflexivity|].
  repeat (split; [vm_compute; reflexivity|]). vm_compute; reflexivity.
Qed.

(** [retract(false, false)] then queues a Z move down by the same amount
    and a filament move of +3 mm at the recover feedrate, and leaves the
    extruder recovered with no hop pending. *)
Example scenario_recover :
  exists m' zmove emove,
    retract two_extruders false false first_retracted = Some (tt, m') /\
    issued m' = issued first_retracted ++ [zmove; emove] /\
    (displacement Z_AXIS zmove == - (838861 # 2097152))%Q /\
    blk_feedrate zmove = f32_of_Z 12 /\
    (displacement E_AXIS emove == 3)%Q /\ blk_feedrate emove = f32_of_Z 45 /\
    retracted_of m' = [false; false] /\
    hop_of m' = f32_zero /\
    current_position m' = parked.
Proof.
  do 3 eexists. split; [vm_compute; reflexivity|].
  repeat (split; [vm_compute; reflexivity|]). vm_compute; reflexivity.
Qed.

(** ** Rounding at work *)

(** At a flow factor of 0 [renormalize] is infinite, and so is the
    coordinate the filament move starts from. *)
Example retract_at_zero_flow :
  exists m' emove zmove,
    retract two_extruders true false (flowing f32_zero) = Some (tt, m') /\
    issued m' = [emove; zmove] /\
    (f32_one / f32_zero)%f32 = S754_infinity false /\
    axis_get (blk_from emove) E_AXIS = S754_infinity false /\
    blk_to emove = parked.
Proof.
  do 3 eexists. split; [vm_compute; reflexivity|].
  repeat (split; [vm_compute; reflexivity|]). vm_compute; reflexivity.
Qed.

(** At half flow nothing is rounded: 13 mm of swap retract start 26 mm
    ahead, and a lift of half a millimetre is made and undone exactly. *)
Example exact_at_half_flow :
  exactly (f32_ratio 1 2) (1 # 2) /\
  exactly (f32_of_Z 100 + f32_of_Z 13 * (f32_one / f32_ratio 1 2))%f32
          (100 + 13 / (1 # 2)) /\
  exactly (f32_of_Z 100 - (f32_of_Z 13 + f32_zero) * (f32_one / f32_ratio 1 2))%f32
          (100 - (13 + 0) / (1 # 2)) /\
  exactly (f32_of_Z 5 - f32_ratio 1 2)%f32 (5 - (1 # 2)) /\
  exactly (f32_of_Z 5 + f32_ratio 1 2)%f32 (5 + (1 # 2)).
Proof. repeat split; vm_compute; reflexivity. Qed.

(** The lift of 0.4 mm is not a float, and neither are 5 - 0.4 and
    5 + 0.4: the hop of the scenario is made from 9646899/2097152 and
    undone from 11324621/2097152. *)
Example lift_of_two_fifths_is_rounded :
  (f32_value (f32_ratio 2 5) == 13421773 # 33554432)%Q /\
  (f32_value (f32_of_Z 5 - f32_ratio 2 5)%f32 == 9646899 # 2097152)%Q /\
  (f32_value (f32_of_Z 5 + f32_ratio 2 5)%f32 == 11324621 # 2097152)%Q /\
  ~ exactly (f32_of_Z 5 - f32_ratio 2 5)%f32 (5 - f32_value (f32_ratio 2 5)) /\
  ~ exactly (f32_of_Z 5 + f32_ratio 2 5)%f32 (5 + f32_value (f32_ratio 2 5)).
Proof.
  do 3 (split; [vm_compute; reflexivity|]).
  split; intros [_ H]; vm_compute in H; discriminate H.
Qed.

(** ** Suppressed calls *)

(** C1.  When the active extruder's [retracted] flag already equals
    [retracting], [retract(retracting, swapping)] returns the machine it
    was called on, for either value of [swapping]: no move is queued, and
    the flags of every extruder, the hop amount, the positions and the
    feedrate are what they were. *)
Theorem retract_same_direction_is_noop
    (B : Build) (m : Machine) (retracting swapping : bool) :
  retracted_of m !! active_extruder m = Some retracting ->
  retract B retracting swapping m = Some (tt, m).
Proof.
  intros H. apply retract_suppressed. now apply verdict_same.
Qed.

Lemma retract_same_direction_is_noop_witness :
  retracted_of (fresh two_extruders) !! active_extruder (fresh two_extruders)
    = Some false /\
  retract two_extruders false true (fresh two_extruders)
    = Some (tt, fresh two_extruders).
Proof.
  split; [vm_compute; reflexivity|].
  apply (retract_same_direction_is_noop two_extruders (fresh two_extruders) false true).
  vm_compute; reflexivity.
Defined.

(** C4.  With more than one extruder, when [swapping] is true and the
    active extruder's [retracted_swap] flag already equals [retracting],
    [retract(retracting, true)] returns the machine it was called on, also
    when the [retracted] flag differs from [retracting]. *)
Theorem retract_same_swap_direction_is_noop
    (B : Build) (m : Machine) (retracting was : bool) :
  multi_extruder B = true ->
  retracted_of m !! active_extruder m = Some was ->
  retracted_swap_of m !! active_extruder m = Some retracting ->
  retract B retracting true m = Some (tt, m).
Proof.
  intros Hm Hr Hs. apply retract_suppressed.
  now apply verdict_swap_same with (was := was).
Qed.

Lemma retract_same_swap_direction_is_noop_witness :
  multi_extruder two_extruders = true /\
  retracted_of plain_retracted !! active_extruder plain_retracted = Some true /\
  retracted_swap_of plain_retracted !! active_extruder plain_retracted = Some false /\
  retract two_extruders false true plain_retracted = Some (tt, plain_retracted).
Proof.
  split; [vm_compute; reflexivity|].
  split; [vm_compute; reflexivity|].
  split; [vm_compute; reflexivity|].
  apply (retract_same_swap_direction_is_noop two_extruders plain_retracted false true);
    vm_compute; reflexivity.
Defined.

(** ** Recovering *)

(** The undo of a hop, when there is one, carries no filament motion. *)
Lemma hop_undo_holds_no_filament (m : Machine) :
  Forall (still E_AXIS) (if f32_truthy (hop_of m) then [hop_undo_move m] else []).
Proof.
  destruct (f32_truthy (hop_of m)); [|constructor].
  constructor; [reflexivity|constructor].
Qed.

Lemma hop_undo_is_one_move_at_most (m : Machine) :
  length (if f32_truthy (hop_of m) then [hop_undo_move m] else []) <= 1.
Proof. destruct (f32_truthy (hop_of m)); cbn [length]; lia. Qed.

(** C2.  With more than one extruder, a recover request that finds the
    active extruder's [retracted_swap] flag set (on flags as the controller
    keeps them, a set swap flag going with a set [retracted] flag) is
    carried out as a swap recover whatever the caller passes for
    [swapping]: its one filament move starts where line 166 puts the
    tracked filament coordinate, at the coordinate minus the sum of the
    swap retract length and the swap recover length times [renormalize]
    (each operation in single precision), and runs back to the position
    the call found, at the swap recover feedrate; both flags of the
    extruder end up false. *)
Theorem recover_gives_swap_priority
    (B : Build) (m : Machine) (swapping : bool) (f : f32) :
  multi_extruder B = true ->
  swap_within_retracted B m ->
  retracted_swap_of m !! active_extruder m = Some true ->
  e_factor (planner m) !! active_extruder m = Some f ->
  exists m' undo move,
    retract B false swapping m = Some (tt, m') /\
    issued m' = issued m ++ undo ++ [move] /\
    length undo <= 1 /\
    Forall (still E_AXIS) undo /\
    axis_get (blk_from move) E_AXIS
    = (axis_get (current_position m) E_AXIS
       - (swap_retract_length (cfg m) + swap_retract_recover_length (cfg m))
         * (f32_one / f))%f32 /\
    blk_to move = current_position m /\
    blk_feedrate move = swap_retract_recover_feedrate_mm_s (cfg m) /\
    retracted_of m' !! active_extruder m' = Some false /\
    retracted_swap_of m' !! active_extruder m' = Some false.
Proof.
  intros Hm Inv Hs Hf.
  pose proof (Inv Hm _ Hs) as Hr.
  assert (Hv : verdict B false swapping m = Some (Accepted true, m)).
  { apply (verdict_accept_multi B m false swapping true); auto. }
  exists (outcome B false true f m),
         (if f32_truthy (hop_of m) then [hop_undo_move m] else []),
         (recover_e_move true f m).
  split; [now apply retract_accepted|].
  split; [apply issued_outcome|].
  split; [apply hop_undo_is_one_move_at_most|].
  split; [apply hop_undo_holds_no_filament|].
  split; [unfold recover_e_move; now destruct (f32_truthy (hop_of m))|].
  split; [reflexivity|].
  split; [reflexivity|].
  split.
  - exact (outcome_retracted B m false true true f Hr).
  - exact (outcome_retracted_swap B m false true f Hm Hs).
Qed.

Lemma recover_gives_swap_priority_witness :
  multi_extruder two_extruders = true /\
  swap_within_retracted two_extruders swap_retracted /\
  retracted_swap_of swap_retracted !! active_extruder swap_retracted = Some true /\
  e_factor (planner swap_retracted) !! active_extruder swap_retracted
    = Some f32_one /\
  exists m' undo move,
    retract two_extruders false false swap_retracted = Some (tt, m') /\
    issued m' = issued swap_retracted ++ undo ++ [move] /\
    length undo <= 1 /\
    Forall (still E_AXIS) undo /\
    axis_get (blk_from move) E_AXIS
    = (axis_get (current_position swap_retracted) E_AXIS
       - (swap_retract_length (cfg swap_retracted)
          + swap_retract_recover_length (cfg swap_retracted))
         * (f32_one / f32_one))%f32 /\
    blk_to move = current_position swap_retracted /\
    blk_feedrate move = swap_retract_recover_feedrate_mm_s (cfg swap_retracted) /\
    retracted_of m' !! active_extruder m' = Some false /\
    retracted_swap_of m' !! active_extruder m' = Some false.
Proof.
  assert (Inv : swap_within_retracted two_extruders swap_retracted).
  { intros _ [|[|i]]; vm_compute; intros E; (exact E || discriminate E). }
  split; [vm_compute; reflexivity|].
  split; [exact Inv|].
  split; [vm_compute; reflexivity|].
  split; [vm_compute; reflexivity|].
  apply (recover_gives_swap_priority two_extruders swap_retracted false f32_one);
    [vm_compute; reflexivity | exact Inv | vm_compute; reflexivity
    | vm_compute; reflexivity].
Defined.

(** The claim of C7 as it stands fails in its distance.  With the
    carriage at Z = 5, a lift of 0.4 (the float 13421773/33554432) and a
    hop pending, a recover is accepted; line 155 puts the tracked Z at
    11324621/2097152, the single-precision sum, and the undo is a move of
    838861/2097152 mm down, which is not [retract_zlift]. *)
Lemma hop_undo_is_rounded :
  exists m' zmove emove,
    verdict two_extruders false false plain_retracted
      = Some (Accepted false, plain_retracted) /\
    f32_truthy (hop_of plain_retracted) = true /\
    retract_zlift (cfg plain_retracted) = f32_ratio 2 5 /\
    (f32_value (f32_ratio 2 5) == 13421773 # 33554432)%Q /\
    retract two_extruders false false plain_retracted = Some (tt, m') /\
    issued m' = [zmove; emove] /\
    blk_from zmove = axis_set parked Z_AXIS (f32_of_Z 5 + f32_ratio 2 5)%f32 /\
    (f32_value (axis_get (blk_from zmove) Z_AXIS) == 11324621 # 2097152)%Q /\
    (f32_value (axis_get (blk_to zmove) Z_AXIS) == 5)%Q /\
    (displacement Z_AXIS zmove == - (838861 # 2097152))%Q /\
    still Z_AXIS emove /\
    ~ (displacement Z_AXIS zmove
       == - f32_value (retract_zlift (cfg plain_retracted)))%Q /\
    ~ (displacement Z_AXIS zmove == - (2 # 5))%Q.
Proof.
  do 3 eexists. split; [vm_compute; reflexivity|].
  do 10 (split; [vm_compute; reflexivity|]).
  split; vm_compute; discriminate.
Qed.

(** C7, amended.  An accepted recover that finds a hop pending
    ([hop_amount] not zero) first redefines the tracked Z as the current Z
    plus the current [retract_zlift] (the single-precision sum of line
    155) and queues a move from there back to the original position at
    the Z axis' maximum feedrate, a move in Z alone.  The filament
    recovery move is queued after it and does not move Z, and
    [hop_amount] is zero when the call returns.  The undo takes its
    distance from [retract_zlift], not from [hop_amount]: the Z move is
    one of minus [retract_zlift] where the sum is exact, and of the rounded
    sum minus Z otherwise. *)
Theorem recover_undoes_hop_first
    (B : Build) (m : Machine) (swapping sw : bool) (f : f32) :
  verdict B false swapping m = Some (Accepted sw, m) ->
  e_factor (planner m) !! active_extruder m = Some f ->
  f32_truthy (hop_of m) = true ->
  exists m' zmove emove,
    retract B false swapping m = Some (tt, m') /\
    issued m' = issued m ++ [zmove; emove] /\
    blk_from zmove
    = axis_set (current_position m) Z_AXIS
        (axis_get (current_position m) Z_AXIS + retract_zlift (cfg m))%f32 /\
    blk_to zmove = current_position m /\
    blk_feedrate zmove = axis_get (max_feedrate_mm_s (planner m)) Z_AXIS /\
    still X_AXIS zmove /\ still Y_AXIS zmove /\ still E_AXIS zmove /\
    (forall z lift : Q,
       exactly (axis_get (current_position m) Z_AXIS) z ->
       exactly (retract_zlift (cfg m)) lift ->
       exactly (axis_get (current_position m) Z_AXIS + retract_zlift (cfg m))%f32
               (z + lift) ->
       (displacement Z_AXIS zmove == - lift)%Q) /\
    blk_to emove = current_position m /\
    still Z_AXIS emove /\
    hop_of m' = f32_zero.
Proof.
  intros Hv Hf Hhop.
  exists (outcome B false sw f m), (hop_undo_move m), (recover_e_move sw f m).
  split; [now apply retract_accepted|].
  split; [rewrite issued_outcome; unfold recover_moves; now rewrite Hhop|].
  split; [reflexivity|]. split; [reflexivity|]. split; [reflexivity|].
  split; [reflexivity|]. split; [reflexivity|]. split; [reflexivity|].
  split.
  { intros z lift Hz _ Hsum.
    rewrite (displacement_between Z_AXIS (hop_undo_move m) (z + lift) z);
      [ring | exact Hsum | exact Hz]. }
  split; [reflexivity|].
  split; [now apply recover_e_move_still_after_undo|].
  unfold outcome, hop_of at 1. cbn [fwretract hop_amount]. now rewrite Hhop.
Qed.

Lemma recover_undoes_hop_first_witness :
  verdict two_extruders false false plain_retracted
    = Some (Accepted false, plain_retracted) /\
  e_factor (planner plain_retracted) !! active_extruder plain_retracted
    = Some f32_one /\
  f32_truthy (hop_of plain_retracted) = true /\
  exists m' zmove emove,
    retract two_extruders false false plain_retracted = Some (tt, m') /\
    issued m' = issued plain_retracted ++ [zmove; emove] /\
    blk_from zmove
    = axis_set (current_position plain_retracted) Z_AXIS
        (axis_get (current_position plain_retracted) Z_AXIS
         + retract_zlift (cfg plain_retracted))%f32 /\
    blk_to zmove = current_position plain_retracted /\
    blk_feedrate zmove = axis_get (max_feedrate_mm_s (planner plain_retracted)) Z_AXIS /\
    still X_AXIS zmove /\ still Y_AXIS zmove /\ still E_AXIS zmove /\
    (forall z lift : Q,
       exactly (axis_get (current_position plain_retracted) Z_AXIS) z ->
       exactly (retract_zlift (cfg plain_retracted)) lift ->
       exactly (axis_get (current_position plain_retracted) Z_AXIS
                + retract_zlift (cfg plain_retracted))%f32 (z + lift) ->
       (displacement Z_AXIS zmove == - lift)%Q) /\
    blk_to emove = current_position plain_retracted /\
    still Z_AXIS emove /\
    hop_of m' = f32_zero.
Proof.
  split; [vm_compute; reflexivity|].
  split; [vm_compute; reflexivity|].
  split; [vm_compute; reflexivity|].
  apply (recover_undoes_hop_first two_extruders plain_retracted false false f32_one);
    vm_compute; reflexivity.
Defined.

(** C8.  An accepted recover lowers the tracker's filament coordinate by
    [(swapping ? swap_retract_length + swap_retract_recover_length
               : retract_length + retract_recover_length) * renormalize],
    computed as line 165 and 166 do in single precision, [swapping] being
    the function's local variable (the extruder's swap flag with several
    extruders, false with one), and queues exactly one move with filament
    motion, from the lowered coordinate back to the position the call
    started from: retract distance and recover overshoot in one move.
    Where the arithmetic is exact that move is one of [move_e / f]. *)
Theorem recover_moves_filament_once
    (B : Build) (m : Machine) (swapping sw : bool) (f : f32) :
  verdict B false swapping m = Some (Accepted sw, m) ->
  e_factor (planner m) !! active_extruder m = Some f ->
  let move_e :=
    if sw
    then (swap_retract_length (cfg m) + swap_retract_recover_length (cfg m))%f32
    else (retract_length (cfg m) + retract_recover_length (cfg m))%f32 in
  exists m' undo move,
    retract B false swapping m = Some (tt, m') /\
    issued m' = issued m ++ undo ++ [move] /\
    length undo <= 1 /\
    Forall (still E_AXIS) undo /\
    axis_get (blk_from move) E_AXIS
    = (axis_get (current_position m) E_AXIS - move_e * (f32_one / f))%f32 /\
    blk_to move = current_position m /\
    (forall e len factor : Q,
       exactly (axis_get (current_position m) E_AXIS) e ->
       exactly move_e len ->
       exactly f factor ->
       exactly (axis_get (current_position m) E_AXIS - move_e * (f32_one / f))%f32
               (e - len / factor) ->
       (displacement E_AXIS move == len / factor)%Q) /\
    current_position m' = current_position m /\
    (multi_extruder B = false -> sw = false) /\
    (multi_extruder B = true ->
     retracted_swap_of m !! active_extruder m = Some sw).
Proof.
  intros Hv Hf move_e.
  assert (Hfrom : axis_get (blk_from (recover_e_move sw f m)) E_AXIS
                  = (axis_get (current_position m) E_AXIS
                     - move_e * (f32_one / f))%f32).
  { unfold recover_e_move. now destruct (f32_truthy (hop_of m)). }
  exists (outcome B false sw f m),
         (if f32_truthy (hop_of m) then [hop_undo_move m] else []),
         (recover_e_move sw f m).
  split; [now apply retract_accepted|].
  split; [apply issued_outcome|].
  split; [apply hop_undo_is_one_move_at_most|].
  split; [apply hop_undo_holds_no_filament|].
  split; [exact Hfrom|].
  split; [reflexivity|].
  split.
  { intros e len factor He _ _ Hstart.
    rewrite (displacement_between E_AXIS (recover_e_move sw f m)
               (e - len / factor) e); [ring | now rewrite Hfrom | exact He]. }
  split; [reflexivity|].
  destruct (verdict_inv B _ _ _ _ _ Hv) as (_ & was & _ & _ & H1 & H2).
  split; [exact H1|]. intros Hm. now destruct (H2 Hm).
Qed.

Lemma recover_moves_filament_once_witness :
  verdict two_extruders false false swap_retracted
    = Some (Accepted true, swap_retracted) /\
  e_factor (planner swap_retracted) !! active_extruder swap_retracted
    = Some f32_one /\
  exists m' undo move,
    retract two_extruders false false swap_retracted = Some (tt, m') /\
    issued m' = issued swap_retracted ++ undo ++ [move] /\
    length undo <= 1 /\
    Forall (still E_AXIS) undo /\
    axis_get (blk_from move) E_AXIS
    = (axis_get (current_position swap_retracted) E_AXIS
       - (swap_retract_length (cfg swap_retracted)
          + swap_retract_recover_length (cfg swap_retracted))
         * (f32_one / f32_one))%f32 /\
    blk_to move = current_position swap_retracted /\
    (forall e len factor : Q,
       exactly (axis_get (current_position swap_retracted) E_AXIS) e ->
       exactly (swap_retract_length (cfg swap_retracted)
                + swap_retract_recover_length (cfg swap_retracted))%f32 len ->
       exactly f32_one factor ->
       exactly (axis_get (current_position swap_retracted) E_AXIS
                - (swap_retract_length (cfg swap_retracted)
                   + swap_retract_recover_length (cfg swap_retracted))
                  * (f32_one / f32_one))%f32 (e - len / factor) ->
       (displacement E_AXIS move == len / factor)%Q) /\
    current_position m' = current_position swap_retracted /\
    (multi_extruder two_extruders = false -> true = false) /\
    (multi_extruder two_extruders = true ->
     retracted_swap_of swap_retracted !! active_extruder swap_retracted = Some true).
Proof.
  split; [vm_compute; reflexivity|].
  split; [vm_compute; reflexivity|].
  apply (recover_moves_filament_once two_extruders swap_retracted false true f32_one);
    vm_compute; reflexivity.
Defined.

(** ** Retracting *)




(** One retract request leaves the settings alone and either leaves
    [hop_amount] alone or adds [retract_zlift] to it, the latter only with
    a hop configured and none pending. *)
Lemma retract_hop_step (B : Build) (m m1 : Machine) (swapping : bool) :
  retract B true swapping m = Some (tt, m1) ->
  cfg m1 = cfg m /\
  (hop_of m1 = hop_of m \/
   (hop_of m1 = (hop_of m + retract_zlift (cfg m))%f32 /\
    f32_ltb hundredth (retract_zlift (cfg m)) = true /\
    f32_is_zero (hop_of m) = true)).
Proof.
  intros H. apply retract_inv in H as [[_ ->]|(sw & f & _ & _ & ->)]; [auto|].
  split; [reflexivity|].
  unfold outcome, hop_of at 1 3. cbn [fwretract hop_amount].
  destruct (hops m) eqn:Hh; [|auto].
  right. split; [reflexivity|]. now apply hops_true.
Qed.

(** Along retract requests the pending hop is nothing or one lift. *)
Lemma retracts_only_hop (B : Build) (m m' : Machine) :
  retracts_only B m m' ->
  forall zlift,
    retract_zlift (cfg m) = zlift ->
    f32_is_zero (hop_of m) = true \/ hop_of m = zlift ->
    retract_zlift (cfg m') = zlift /\
    (f32_is_zero (hop_of m') = true \/ hop_of m' = zlift).
Proof.
  induction 1 as [m | m m1 m2 swapping Hcall _ IH | m m1 m2 [Hcfg Hhop] _ IH];
    intros zlift Hz Hinv.
  - auto.
  - apply retract_hop_step in Hcall as [Hcfg Hstep].
    apply IH; [now rewrite Hcfg|].
    destruct Hstep as [-> | (-> & Hlift & H0)]; [exact Hinv|].
    right. rewrite <- Hz. now apply f32_add_zero_l.
  - apply IH; [now rewrite Hcfg | now rewrite Hhop].
Qed.

(** C5.  A retract request changes [hop_amount] only by adding
    [retract_zlift] to it, and only with a hop configured
    ([retract_zlift > 0.01]) and none pending ([hop_amount] zero).  So
    along retract requests with no recover among them, begun with no hop
    pending and the settings left alone, [hop_amount] is zero or one
    [retract_zlift], never more. *)
Theorem hop_is_added_once
    (B : Build) (m m1 m2 : Machine) (swapping : bool) :
  retract B true swapping m = Some (tt, m1) ->
  retracts_only B m1 m2 ->
  (hop_of m1 = hop_of m \/
   (hop_of m1 = (hop_of m + retract_zlift (cfg m))%f32 /\
    f32_ltb hundredth (retract_zlift (cfg m)) = true /\
    f32_is_zero (hop_of m) = true)) /\
  (f32_is_zero (hop_of m) = true ->
   (f32_is_zero (hop_of m2) = true \/ hop_of m2 = retract_zlift (cfg m)) /\
   (f32_leb f32_zero (retract_zlift (cfg m)) = true ->
    f32_leb (hop_of m2) (retract_zlift (cfg m)) = true)).
Proof.
  intros Hcall Hrun.
  pose proof (retracts_only_call B m m1 m2 swapping Hcall Hrun) as Hall.
  apply retract_hop_step in Hcall as [_ Hstep]. split; [exact Hstep|].
  intros H0.
  destruct (retracts_only_hop B m m2 Hall _ eq_refl (or_introl H0)) as [_ Hhop].
  split; [exact Hhop|]. intros Hpos.
  destruct Hhop as [Hzero | ->];
    [now apply f32_leb_zero_l | now apply f32_leb_refl].
Qed.

(** Extruder 0 retracts, the tool changes, extruder 1 retracts. *)
Lemma hop_is_added_once_witness :
  retract two_extruders true false (fresh two_extruders) = Some (tt, first_retracted) /\
  retracts_only two_extruders first_retracted both_retracted /\
  retracted_of both_retracted = [true; true] /\
  (hop_of first_retracted = hop_of (fresh two_extruders) \/
   (hop_of first_retracted
    = (hop_of (fresh two_extruders) + f32_ratio 2 5)%f32 /\
    f32_ltb hundredth (f32_ratio 2 5) = true /\
    f32_is_zero (hop_of (fresh two_extruders)) = true)) /\
  (f32_is_zero (hop_of (fresh two_extruders)) = true ->
   (f32_is_zero (hop_of both_retracted) = true \/
    hop_of both_retracted = f32_ratio 2 5) /\
   (f32_leb f32_zero (f32_ratio 2 5) = true ->
    f32_leb (hop_of both_retracted) (f32_ratio 2 5) = true)).
Proof.
  assert (H1 : retract two_extruders true false (fresh two_extruders)
               = Some (tt, first_retracted)).
  { vm_compute. reflexivity. }
  assert (H2 : retracts_only two_extruders first_retracted both_retracted).
  { apply retracts_only_elsewhere with (m1 := select_extruder 1 first_retracted).
    - split; reflexivity.
    - apply retracts_only_call with (m1 := both_retracted) (swapping := false).
      + vm_compute. reflexivity.
      + apply retracts_only_done. }
  split; [exact H1|]. split; [exact H2|]. split; [vm_compute; reflexivity|].
  exact (hop_is_added_once two_extruders (fresh two_extruders) _ _ false H1 H2).
Defined.

(** ** A hop and its undoing *)

(** A retract from the recovered state passes the guards. *)
Lemma verdict_fresh_retract (B : Build) (m : Machine) (swapping : bool) :
  retracted_of m !! active_extruder m = Some false ->
  (multi_extruder B = true ->
   retracted_swap_of m !! active_extruder m = Some false) ->
  verdict B true swapping m = Some (Accepted (multi_extruder B && swapping), m).
Proof.
  intros Hr Hs. destruct (multi_extruder B) eqn:Hm; cbn [andb].
  - apply (verdict_accept_multi B m true swapping false); auto.
  - apply (verdict_accept_single B m true swapping); auto.
Qed.

(** A recover on a retracted extruder passes the guards with the swap flag
    as its variant, unless it asks for a swap that is not there. *)
Lemma verdict_recover_retracted (B : Build) (m : Machine) (swapping sw : bool) :
  retracted_of m !! active_extruder m = Some true ->
  (multi_extruder B = true ->
   retracted_swap_of m !! active_extruder m = Some sw) ->
  (multi_extruder B = false -> sw = false) ->
  (multi_extruder B = true -> swapping = true -> sw = true) ->
  verdict B false swapping m = Some (Accepted sw, m).
Proof.
  intros Hr Hs Hsingle Hsw. destruct (multi_extruder B) eqn:Hm.
  - apply (verdict_accept_multi B m false swapping sw); auto.
  - rewrite (Hsingle eq_refl). now apply (verdict_accept_single B m false swapping).
Qed.

(** The swap flag a retract from the recovered state leaves behind. *)
Lemma outcome_fresh_swap (B : Build) (m : Machine) (swapping : bool) (f : f32) :
  multi_extruder B = true ->
  retracted_swap_of m !! active_extruder m = Some false ->
  retracted_swap_of (outcome B true (multi_extruder B && swapping) f m)
    !! active_extruder m
  = Some (multi_extruder B && swapping).
Proof.
  intros Hm Hs. rewrite Hm. cbn [andb]. destruct swapping.
  - exact (outcome_retracted_swap B m true false f Hm Hs).
  - unfold outcome, retracted_swap_of at 1.
    cbn [fwretract retracted_swap active_extruder].
    now rewrite andb_false_r.
Qed.

(** A hop made leaves a hop pending. *)
Lemma hop_made_is_pending (B : Build) (m : Machine) (sw : bool) (f : f32) :
  f32_is_zero (hop_of m) = true ->
  f32_ltb hundredth (retract_zlift (cfg m)) = true ->
  hops m = true /\
  hop_of (outcome B true sw f m) = retract_zlift (cfg m) /\
  f32_truthy (retract_zlift (cfg m)) = true.
Proof.
  intros Hhop Hz.
  assert (Hhops : hops m = true) by (apply hops_true; now split).
  split; [exact Hhops|]. split; [|now apply f32_above_hundredth_truthy].
  unfold outcome, hop_of at 1. cbn [fwretract hop_amount]. rewrite Hhops.
  now apply f32_add_zero_l.
Qed.

(** The claim of C3 as it stands fails, in two ways.  On two extruders,
    from the recovered state with no hop pending and a lift of 0.4, a plain
    retract followed at once by a swap recover request leaves the carriage
    lifted: line 104 suppresses the second call.  And where the recover is
    accepted, the two Z moves need not cancel: with the carriage at Z = 8
    the lift is made from 15938355/2097152 and undone from 4404019/524288,
    and 1/2097152 mm remain. *)
Lemma hop_symmetry_fails :
  (retracted_of (fresh two_extruders) !! active_extruder (fresh two_extruders)
     = Some false /\
   retracted_swap_of (fresh two_extruders) !! active_extruder (fresh two_extruders)
     = Some false /\
   hop_of (fresh two_extruders) = f32_zero /\
   f32_ltb hundredth (retract_zlift (cfg (fresh two_extruders))) = true /\
   retract two_extruders true false (fresh two_extruders)
     = Some (tt, first_retracted) /\
   retract two_extruders false true first_retracted = Some (tt, first_retracted) /\
   issued first_retracted
     = issued (fresh two_extruders)
       ++ [retract_e_move false f32_one (fresh two_extruders);
           hop_move (fresh two_extruders)] /\
   still Z_AXIS (retract_e_move false f32_one (fresh two_extruders)) /\
   (displacement Z_AXIS (hop_move (fresh two_extruders)) == 838861 # 2097152)%Q /\
   hop_of first_retracted = f32_ratio 2 5 /\
   f32_is_zero (hop_of first_retracted) = false) /\
  (exists m1 m2 e1 zup zdown e2,
     retracted_of (fresh_at (at_xyze 10 20 8 100))
       !! active_extruder (fresh_at (at_xyze 10 20 8 100)) = Some false /\
     hop_of (fresh_at (at_xyze 10 20 8 100)) = f32_zero /\
     f32_ltb hundredth (retract_zlift (cfg (fresh_at (at_xyze 10 20 8 100)))) = true /\
     retract two_extruders true false (fresh_at (at_xyze 10 20 8 100))
       = Some (tt, m1) /\
     retract two_extruders false false m1 = Some (tt, m2) /\
     issued m2 = [e1; zup; zdown; e2] /\
     still Z_AXIS e1 /\ still Z_AXIS e2 /\
     (f32_value (axis_get (blk_from zup) Z_AXIS) == 15938355 # 2097152)%Q /\
     (f32_value (axis_get (blk_to zup) Z_AXIS) == 8)%Q /\
     (f32_value (axis_get (blk_from zdown) Z_AXIS) == 4404019 # 524288)%Q /\
     (f32_value (axis_get (blk_to zdown) Z_AXIS) == 8)%Q /\
     (displacement Z_AXIS zup + displacement Z_AXIS zdown == 1 # 2097152)%Q /\
     ~ (displacement Z_AXIS zup + displacement Z_AXIS zdown == 0)%Q).
Proof.
  split.
  - repeat (split; [vm_compute; reflexivity|]). vm_compute; reflexivity.
  - do 6 eexists.
    do 3 (split; [vm_compute; reflexivity|]).
    split; [vm_compute; reflexivity|].
    split; [vm_compute; reflexivity|].
    split; [vm_compute; reflexivity|].
    repeat (split; [vm_compute; reflexivity|]). vm_compute; discriminate.
Qed.

(** C3, amended.  From the recovered state with no hop pending, a retract
    call with [retract_zlift] above 0.01 followed at once by a recover call
    that the guards let through (with several extruders: not a swap
    recover asked for after a plain retract) queues four moves.  The
    second lifts Z from the single-precision value of Z minus the lift to
    the tracked Z, the third lowers it from the single-precision value of
    Z plus the lift to the same tracked Z, the last does not move Z, and
    neither does the first when the planner stood at the tracked position.
    The tracked position ends where it was and [hop_amount] ends at 0.
    The two Z displacements sum to zero where the difference and the sum
    are exact; otherwise they differ by the two rounding errors. *)
Theorem hop_then_recover_returns_to_tracked_Z
    (B : Build) (m : Machine) (swapping1 swapping2 : bool) (f : f32) :
  retracted_of m !! active_extruder m = Some false ->
  (multi_extruder B = true ->
   retracted_swap_of m !! active_extruder m = Some false) ->
  e_factor (planner m) !! active_extruder m = Some f ->
  f32_is_zero (hop_of m) = true ->
  f32_ltb hundredth (retract_zlift (cfg m)) = true ->
  (multi_extruder B = true -> swapping2 = true -> swapping1 = true) ->
  exists m1 m2 e1 zup zdown e2,
    retract B true swapping1 m = Some (tt, m1) /\
    retract B false swapping2 m1 = Some (tt, m2) /\
    issued m2 = issued m ++ [e1; zup; zdown; e2] /\
    blk_from zup
    = axis_set (current_position m) Z_AXIS
        (axis_get (current_position m) Z_AXIS - retract_zlift (cfg m))%f32 /\
    blk_to zup = current_position m /\
    blk_from zdown
    = axis_set (current_position m) Z_AXIS
        (axis_get (current_position m) Z_AXIS + retract_zlift (cfg m))%f32 /\
    blk_to zdown = current_position m /\
    (position (planner m) = current_position m -> still Z_AXIS e1) /\
    still Z_AXIS e2 /\
    current_position m2 = current_position m /\
    hop_of m2 = f32_zero /\
    (forall z lift : Q,
       exactly (axis_get (current_position m) Z_AXIS) z ->
       exactly (retract_zlift (cfg m)) lift ->
       exactly (axis_get (current_position m) Z_AXIS - retract_zlift (cfg m))%f32
               (z - lift) ->
       exactly (axis_get (current_position m) Z_AXIS + retract_zlift (cfg m))%f32
               (z + lift) ->
       (displacement Z_AXIS zup + displacement Z_AXIS zdown == 0)%Q).
Proof.
  intros Hr Hs Hf Hhop Hz Hsw.
  set (sw := multi_extruder B && swapping1).
  destruct (hop_made_is_pending B m sw f Hhop Hz) as (Hhops & Hmade & Hlift).
  set (m1 := outcome B true sw f m) in *.
  assert (Hhop1 : f32_truthy (hop_of m1) = true) by now rewrite Hmade.
  assert (Hv1 : verdict B true swapping1 m = Some (Accepted sw, m))
    by now apply verdict_fresh_retract.
  assert (Hr1 : retracted_of m1 !! active_extruder m1 = Some true)
    by exact (outcome_retracted B m true sw false f Hr).
  assert (Hs1 : multi_extruder B = true ->
                retracted_swap_of m1 !! active_extruder m1 = Some sw).
  { intros Hm. exact (outcome_fresh_swap B m swapping1 f Hm (Hs Hm)). }
  assert (Hv2 : verdict B false swapping2 m1 = Some (Accepted sw, m1)).
  { apply verdict_recover_retracted; auto.
    - unfold sw. now intros ->.
    - unfold sw. intros Hm H2. rewrite Hm, (Hsw Hm H2). reflexivity. }
  exists m1, (outcome B false sw f m1),
         (retract_e_move sw f m), (hop_move m),
         (hop_undo_move m1), (recover_e_move sw f m1).
  split; [now apply retract_accepted|].
  split; [now apply retract_accepted|].
  split.
  { rewrite issued_outcome. unfold m1 at 1. rewrite issued_outcome.
    unfold retract_moves, recover_moves. rewrite Hhops, Hhop1.
    now rewrite <- app_assoc. }
  split; [reflexivity|]. split; [reflexivity|].
  split; [reflexivity|]. split; [reflexivity|].
  split.
  { intros Hsync. unfold still, retract_e_move.
    cbn [blk_from blk_to]. now rewrite Hsync. }
  split; [now apply recover_e_move_still_after_undo|].
  split; [reflexivity|].
  split.
  { unfold outcome, hop_of at 1. cbn [fwretract hop_amount]. now rewrite Hhop1. }
  intros z lift Hzv _ Hdiff Hsum.
  rewrite (displacement_between Z_AXIS (hop_move m) (z - lift) z);
    [|exact Hdiff|exact Hzv].
  rewrite (displacement_between Z_AXIS (hop_undo_move m1) (z + lift) z);
    [ring|exact Hsum|exact Hzv].
Qed.

(** A swap retract, then a recover that asks for no swap. *)
Lemma hop_then_recover_returns_to_tracked_Z_witness :
  retracted_of (fresh two_extruders) !! active_extruder (fresh two_extruders)
    = Some false /\
  (multi_extruder two_extruders = true ->
   retracted_swap_of (fresh two_extruders) !! active_extruder (fresh two_extruders)
     = Some false) /\
  e_factor (planner (fresh two_extruders)) !! active_extruder (fresh two_extruders)
    = Some f32_one /\
  f32_is_zero (hop_of (fresh two_extruders)) = true /\
  f32_ltb hundredth (retract_zlift (cfg (fresh two_extruders))) = true /\
  (multi_extruder two_extruders = true -> false = true -> true = true) /\
  exists m1 m2 e1 zup zdown e2,
    retract two_extruders true true (fresh two_extruders) = Some (tt, m1) /\
    retract two_extruders false false m1 = Some (tt, m2) /\
    issued m2 = issued (fresh two_extruders) ++ [e1; zup; zdown; e2] /\
    blk_from zup
    = axis_set parked Z_AXIS (f32_of_Z 5 - f32_ratio 2 5)%f32 /\
    blk_to zup = parked /\
    blk_from zdown
    = axis_set parked Z_AXIS (f32_of_Z 5 + f32_ratio 2 5)%f32 /\
    blk_to zdown = parked /\
    (position (planner (fresh two_extruders)) = parked -> still Z_AXIS e1) /\
    still Z_AXIS e2 /\
    current_position m2 = parked /\
    hop_of m2 = f32_zero /\
    (forall z lift : Q,
       exactly (f32_of_Z 5) z ->
       exactly (f32_ratio 2 5) lift ->
       exactly (f32_of_Z 5 - f32_ratio 2 5)%f32 (z - lift) ->
       exactly (f32_of_Z 5 + f32_ratio 2 5)%f32 (z + lift) ->
       (displacement Z_AXIS zup + displacement Z_AXIS zdown == 0)%Q).
Proof.
  split; [vm_compute; reflexivity|].
  split; [intros _; vm_compute; reflexivity|].
  split; [vm_compute; reflexivity|].
  split; [vm_compute; reflexivity|].
  split; [vm_compute; reflexivity|].
  split; [intros _ _; reflexivity|].
  apply (hop_then_recover_returns_to_tracked_Z two_extruders
           (fresh two_extruders) true false f32_one).
  - vm_compute; reflexivity.
  - intros _; vm_compute; reflexivity.
  - vm_compute; reflexivity.
  - vm_compute; reflexivity.
  - vm_compute; reflexivity.
  - intros _ _; reflexivity.
Defined.

(** ** [reset] *)

(** C9.  [reset()] returns, with every configuration field at its
    compiled-in default and the [retracted] flag (and, with several
    extruders, the [retracted_swap] flag) of every extruder false, which is
    the recovered state [retract] starts from.  Nothing else changes. *)
Theorem reset_restores_defaults (B : Build) (m : Machine) :
  EXTRUDERS B <= 255 ->
  length (retracted_of m) = EXTRUDERS B ->
  (multi_extruder B = true -> length (retracted_swap_of m) = EXTRUDERS B) ->
  exists m',
    reset B m = Some (tt, m') /\
    cfg m' = mkSettings false (RETRACT_LENGTH B) (RETRACT_FEEDRATE B)
               (RETRACT_ZLIFT B) (RETRACT_RECOVER_LENGTH B)
               (RETRACT_RECOVER_FEEDRATE B) (RETRACT_LENGTH_SWAP B)
               (RETRACT_RECOVER_LENGTH_SWAP B) (RETRACT_RECOVER_FEEDRATE_SWAP B) /\
    (forall i, i < EXTRUDERS B -> retracted_of m' !! i = Some false) /\
    (multi_extruder B = true ->
     forall i, i < EXTRUDERS B -> retracted_swap_of m' !! i = Some false) /\
    swap_within_retracted B m' /\
    hop_of m' = hop_of m /\
    active_extruder m' = active_extruder m /\
    feedrate_mm_s m' = feedrate_mm_s m /\
    current_position m' = current_position m /\
    destination m' = destination m /\
    planner m' = planner m /\
    stepper_done m' = stepper_done m.
Proof.
  destruct m as [[cf rl sl hop] ae fr cur dst pl done].
  cbv [retracted_of retracted_swap_of fwretract retracted retracted_swap].
  intros Hb Hrl Hsl.
  destruct (reset_loop B (reset_settings B) hop ae fr cur dst pl done 257 0 rl sl)
    as (rl' & sl' & Hrun & Hrl' & Hsl'); auto; try lia.
  assert (Hflags : forall i, i < EXTRUDERS B -> rl' !! i = Some false).
  { intros i Hi. rewrite Hrl'. cbn [Nat.leb andb].
    now replace (i <? EXTRUDERS B) with true by (symmetry; now apply Nat.ltb_lt). }
  assert (Hswaps : multi_extruder B = true ->
                   forall i, i < EXTRUDERS B -> sl' !! i = Some false).
  { intros Hm i Hi. rewrite Hm in Hsl'. rewrite Hsl'. cbn [Nat.leb andb].
    now replace (i <? EXTRUDERS B) with true by (symmetry; now apply Nat.ltb_lt). }
  eexists. split.
  { unfold reset. erewrite run_bind by reflexivity. exact Hrun. }
  cbv [cfg hop_of retracted_of retracted_swap_of swap_within_retracted
       fwretract settings retracted retracted_swap hop_amount active_extruder
       feedrate_mm_s current_position destination planner stepper_done].
  repeat (split; [first [reflexivity | assumption]|]).
  split; [|repeat split].
  intros Hm i Hi.
  destruct (decide (i < EXTRUDERS B)) as [Hlt|Hge].
  - rewrite (Hswaps Hm i Hlt) in Hi. discriminate.
  - rewrite Hm in Hsl'. rewrite Hsl' in Hi.
    replace (i <? EXTRUDERS B) with false in Hi
      by (symmetry; apply Nat.ltb_ge; lia).
    rewrite andb_false_r in Hi. apply lookup_lt_Some in Hi.
    rewrite (Hsl Hm) in Hi. lia.
Qed.

Lemma reset_restores_defaults_witness :
  EXTRUDERS two_extruders <= 255 /\
  length (retracted_of swap_retracted) = EXTRUDERS two_extruders /\
  (multi_extruder two_extruders = true ->
   length (retracted_swap_of swap_retracted) = EXTRUDERS two_extruders) /\
  reset two_extruders swap_retracted
    = Some (tt, bench two_extruders [false; false] [false; false] (f32_ratio 2 5) 0) /\
  exists m',
    reset two_extruders swap_retracted = Some (tt, m') /\
    cfg m' = mkSettings false (f32_of_Z 3) (f32_of_Z 45) (f32_ratio 2 5) f32_zero
               (f32_of_Z 45) (f32_of_Z 13) f32_zero (f32_of_Z 8) /\
    (forall i, i < 2 -> retracted_of m' !! i = Some false) /\
    (multi_extruder two_extruders = true ->
     forall i, i < 2 -> retracted_swap_of m' !! i = Some false) /\
    swap_within_retracted two_extruders m' /\
    hop_of m' = hop_of swap_retracted /\
    active_extruder m' = active_extruder swap_retracted /\
    feedrate_mm_s m' = feedrate_mm_s swap_retracted /\
    current_position m' = current_position swap_retracted /\
    destination m' = destination swap_retracted /\
    planner m' = planner swap_retracted /\
    stepper_done m' = stepper_done swap_retracted.
Proof.
  split; [vm_compute; lia|].
  split; [vm_compute; reflexivity|].
  split; [intros _; vm_compute; reflexivity|].
  split; [vm_compute; reflexivity|].
  apply (reset_restores_defaults two_extruders swap_retracted).
  - vm_compute; lia.
  - vm_compute; reflexivity.
  - intros _; vm_compute; reflexivity.
Defined.

(** ** What [retract] leaves alone *)

(** C10.  Every call of [retract], suppressed or accepted, returns with
    the settings (lengths, feedrates, Z lift, autoretract switch) as they
    were, the same active extruder, and the [retracted] and
    [retracted_swap] flags of every other extruder as they were.  Of the
    controller's own data only the active extruder's two flags and
    [hop_amount] can differ afterwards. *)
Theorem retract_touches_only_active_flags
    (B : Build) (m : Machine) (retracting swapping : bool) :
  well_formed B m ->
  exists m',
    retract B retracting swapping m = Some (tt, m') /\
    cfg m' = cfg m /\
    active_extruder m' = active_extruder m /\
    length (retracted_of m') = length (retracted_of m) /\
    length (retracted_swap_of m') = length (retracted_swap_of m) /\
    forall i, i <> active_extruder m ->
      retracted_of m' !! i = retracted_of m !! i /\
      retracted_swap_of m' !! i = retracted_swap_of m !! i.
Proof.
  intros Hwf. destruct (retract_total B m retracting swapping Hwf) as [m' Hrun].
  exists m'. split; [exact Hrun|].
  apply retract_inv in Hrun as [[_ ->]|(sw & f & _ & _ & ->)]; [auto 10|].
  unfold outcome, cfg, retracted_of, retracted_swap_of.
  cbn [fwretract settings retracted retracted_swap active_extruder].
  split; [reflexivity|]. split; [reflexivity|].
  split; [apply length_insert|].
  split; [destruct (multi_extruder B && sw); [apply length_insert|reflexivity]|].
  intros i Hne. split.
  - apply list_lookup_insert_ne. congruence.
  - destruct (multi_extruder B && sw); [|reflexivity].
    apply list_lookup_insert_ne. congruence.
Qed.

Lemma retract_touches_only_active_flags_witness :
  well_formed two_extruders (select_extruder 1 swap_retracted) /\
  exists m',
    retract two_extruders true true (select_extruder 1 swap_retracted)
      = Some (tt, m') /\
    cfg m' = cfg (select_extruder 1 swap_retracted) /\
    active_extruder m' = active_extruder (select_extruder 1 swap_retracted) /\
    length (retracted_of m')
      = length (retracted_of (select_extruder 1 swap_retracted)) /\
    length (retracted_swap_of m')
      = length (retracted_swap_of (select_extruder 1 swap_retracted)) /\
    forall i, i <> active_extruder (select_extruder 1 swap_retracted) ->
      retracted_of m' !! i = retracted_of (select_extruder 1 swap_retracted) !! i /\
      retracted_swap_of m' !! i
        = retracted_swap_of (select_extruder 1 swap_retracted) !! i.
Proof.
  assert (Hwf : well_formed two_extruders (select_extruder 1 swap_retracted)).
  { split; [vm_compute; lia|].
    split; [vm_compute; reflexivity|].
    split; [intros _; vm_compute; reflexivity|].
    vm_compute; reflexivity. }
  split; [exact Hwf|].
  exact (retract_touches_only_active_flags two_extruders
           (select_extruder 1 swap_retracted) true true Hwf).
Defined.

(** ** Further properties of [retract] *)

(** X5.  A request repeated with the same arguments right after a call
    that returned changes nothing: doubled retracts and doubled recovers
    are ignored. *)
Theorem repeated_request_is_ignored
    (B : Build) (m m1 : Machine) (retracting swapping : bool) :
  retract B retracting swapping m = Some (tt, m1) ->
  retract B retracting swapping m1 = Some (tt, m1).
Proof.
  intros H. pose proof H as H0.
  apply retract_inv in H as [[Hv ->]|(sw & f & Hv & Hf & ->)]; [exact H0|].
  destruct (verdict_inv B _ _ _ _ _ Hv) as (_ & was & Hr & _).
  apply retract_suppressed, verdict_same.
  exact (outcome_retracted B m retracting sw was f Hr).
Qed.

Lemma repeated_request_is_ignored_witness :
  retract two_extruders true false (fresh two_extruders) = Some (tt, first_retracted) /\
  retract two_extruders true false first_retracted = Some (tt, first_retracted).
Proof.
  assert (H : retract two_extruders true false (fresh two_extruders)
              = Some (tt, first_retracted)) by (vm_compute; reflexivity).
  split; [exact H|].
  exact (repeated_request_is_ignored two_extruders _ _ true false H).
Defined.

(** X2.  Every call of [retract] hands back the caller's feedrate and the
    tracked position it found: the faux positions and the feedrates of the
    retract, recover and hop moves do not outlive the call.  After an
    accepted call the destination and the planner's position stand at
    that same position. *)
Theorem retract_restores_feedrate_and_position
    (B : Build) (m : Machine) (retracting swapping : bool) :
  well_formed B m ->
  exists m',
    retract B retracting swapping m = Some (tt, m') /\
    feedrate_mm_s m' = feedrate_mm_s m /\
    current_position m' = current_position m /\
    (m' = m \/
     (destination m' = current_position m /\
      position (planner m') = current_position m)).
Proof.
  intros Hwf. destruct (retract_total B m retracting swapping Hwf) as [m' Hrun].
  exists m'. split; [exact Hrun|].
  apply retract_inv in Hrun as [[_ ->]|(sw & f & _ & _ & ->)]; auto.
Qed.

Lemma retract_restores_feedrate_and_position_witness :
  well_formed two_extruders swap_retracted /\
  exists m',
    retract two_extruders false false swap_retracted = Some (tt, m') /\
    feedrate_mm_s m' = feedrate_mm_s swap_retracted /\
    current_position m' = current_position swap_retracted /\
    (m' = swap_retracted \/
     (destination m' = current_position swap_retracted /\
      position (planner m') = current_position swap_retracted)).
Proof.
  assert (Hwf : well_formed two_extruders swap_retracted).
  { split; [vm_compute; lia|].
    split; [vm_compute; reflexivity|].
    split; [intros _; vm_compute; reflexivity|].
    vm_compute; reflexivity. }
  split; [exact Hwf|].
  exact (retract_restores_feedrate_and_position two_extruders swap_retracted
           false false Hwf).
Defined.

(** X4.  An accepted recover leaves the active extruder with both flags
    false and with no hop pending, whichever variant was asked for and
    whatever lift is configured. *)
Theorem accepted_recover_ends_recovered
    (B : Build) (m : Machine) (swapping sw : bool) (f : f32) :
  verdict B false swapping m = Some (Accepted sw, m) ->
  e_factor (planner m) !! active_extruder m = Some f ->
  exists m',
    retract B false swapping m = Some (tt, m') /\
    retracted_of m' !! active_extruder m' = Some false /\
    (multi_extruder B = true ->
     retracted_swap_of m' !! active_extruder m' = Some false) /\
    f32_is_zero (hop_of m') = true.
Proof.
  intros Hv Hf. exists (outcome B false sw f m).
  destruct (verdict_inv B _ _ _ _ _ Hv) as (_ & was & Hr & _ & _ & Hsw).
  split; [now apply retract_accepted|].
  split; [exact (outcome_retracted B m false sw was f Hr)|].
  split.
  - intros Hm. destruct (Hsw Hm) as [Hs _]. destruct sw.
    + exact (outcome_retracted_swap B m false true f Hm Hs).
    + unfold outcome, retracted_swap_of at 1.
      cbn [fwretract retracted_swap active_extruder].
      rewrite andb_false_r. exact Hs.
  - unfold outcome, hop_of at 1. cbn [fwretract hop_amount].
    destruct (f32_truthy (hop_of m)) eqn:Hh; [reflexivity|].
    now apply f32_truthy_false.
Qed.

Lemma accepted_recover_ends_recovered_witness :
  verdict two_extruders false false swap_retracted
    = Some (Accepted true, swap_retracted) /\
  e_factor (planner swap_retracted) !! active_extruder swap_retracted = Some f32_one /\
  exists m',
    retract two_extruders false false swap_retracted = Some (tt, m') /\
    retracted_of m' !! active_extruder m' = Some false /\
    (multi_extruder two_extruders = true ->
     retracted_swap_of m' !! active_extruder m' = Some false) /\
    f32_is_zero (hop_of m') = true.
Proof.
  split; [vm_compute; reflexivity|].
  split; [vm_compute; reflexivity|].
  apply (accepted_recover_ends_recovered two_extruders swap_retracted false true f32_one);
    vm_compute; reflexivity.
Defined.

(** X3.  An accepted call queues one move or two, never more.  A retract
    queues two exactly when it hops ([retract_zlift] strictly above 0.01
    and no hop pending), a recover exactly when a hop is pending. *)
Theorem accepted_call_queues_one_or_two
    (B : Build) (m : Machine) (retracting swapping sw : bool) (f : f32) :
  verdict B retracting swapping m = Some (Accepted sw, m) ->
  e_factor (planner m) !! active_extruder m = Some f ->
  exists m' moves,
    retract B retracting swapping m = Some (tt, m') /\
    issued m' = issued m ++ moves /\
    1 <= length moves <= 2 /\
    (length moves = 2 <->
     if retracting
     then f32_ltb hundredth (retract_zlift (cfg m)) = true /\
          f32_is_zero (hop_of m) = true
     else f32_is_zero (hop_of m) = false).
Proof.
  intros Hv Hf.
  exists (outcome B retracting sw f m),
         (if retracting then retract_moves sw f m else recover_moves sw f m).
  split; [now apply retract_accepted|].
  split; [apply issued_outcome|].
  destruct retracting.
  - unfold retract_moves. rewrite <- hops_true.
    destruct (hops m); cbn [length]; split; try lia; split; congruence.
  - unfold recover_moves. rewrite <- f32_truthy_true.
    destruct (f32_truthy (hop_of m)); cbn [length app]; split; try lia;
      split; congruence.
Qed.

(** A lift of exactly 0.01 is no lift: one move. *)
Lemma accepted_call_queues_one_or_two_witness :
  verdict two_extruders true false
    (configure_zlift hundredth (fresh two_extruders))
    = Some (Accepted false, configure_zlift hundredth (fresh two_extruders)) /\
  e_factor (planner (configure_zlift hundredth (fresh two_extruders)))
    !! active_extruder (configure_zlift hundredth (fresh two_extruders))
    = Some f32_one /\
  exists m' moves,
    retract two_extruders true false
      (configure_zlift hundredth (fresh two_extruders)) = Some (tt, m') /\
    issued m' = issued (configure_zlift hundredth (fresh two_extruders)) ++ moves /\
    1 <= length moves <= 2 /\
    (length moves = 2 <->
     f32_ltb hundredth hundredth = true /\
     f32_is_zero (hop_of (configure_zlift hundredth (fresh two_extruders))) = true).
Proof.
  split; [vm_compute; reflexivity|].
  split; [vm_compute; reflexivity|].
  apply (accepted_call_queues_one_or_two two_extruders
           (configure_zlift hundredth (fresh two_extruders)) true false false f32_one);
    vm_compute; reflexivity.
Defined.

Lemma eqb_false_negb (a b : bool) : Bool.eqb a b = false -> a = negb b.
Proof. now destruct a, b. Qed.

(** X10.  A request is suppressed exactly when the [retracted] flag
    already has its direction, or, with several extruders, when it asks
    for a swap and the [retracted_swap] flag already has its direction.
    Every other request queues at least one move and sets the
    [retracted] flag to its direction. *)
Theorem request_is_suppressed_exactly_when_guarded
    (B : Build) (m : Machine) (retracting swapping was ws : bool) (f : f32) :
  retracted_of m !! active_extruder m = Some was ->
  (multi_extruder B = true ->
   retracted_swap_of m !! active_extruder m = Some ws) ->
  e_factor (planner m) !! active_extruder m = Some f ->
  exists m',
    retract B retracting swapping m = Some (tt, m') /\
    (guarded B retracting swapping was ws = true -> m' = m) /\
    (guarded B retracting swapping was ws = false ->
     length (issued m) < length (issued m') /\
     retracted_of m' !! active_extruder m' = Some retracting).
Proof.
  intros Hr Hs Hf. unfold guarded.
  destruct (Bool.eqb was retracting) eqn:He; cbn [orb].
  - apply Bool.eqb_prop in He. subst was. exists m.
    split; [apply retract_suppressed; now apply verdict_same|].
    split; [reflexivity|discriminate].
  - apply eqb_false_negb in He. subst was.
    destruct (multi_extruder B) eqn:Hm; cbn [andb].
    + specialize (Hs eq_refl).
      destruct swapping, (Bool.eqb ws retracting) eqn:Hw; cbn [andb].
      * apply Bool.eqb_prop in Hw. subst ws. exists m.
        split; [apply retract_suppressed;
                now apply verdict_swap_same with (was := negb retracting)|].
        split; [reflexivity|discriminate].
      * apply eqb_false_negb in Hw.
        eexists. split; [|split; [discriminate|intros _]].
        -- eapply retract_accepted; [|exact Hf].
           apply (verdict_accept_multi B m retracting true ws); auto.
        -- split; [|exact (outcome_retracted B m retracting _ _ f Hr)].
           rewrite issued_outcome, length_app.
           destruct retracting; unfold retract_moves, recover_moves;
             rewrite ?length_app; cbn [length]; lia.
      * eexists. split; [|split; [discriminate|intros _]].
        -- eapply retract_accepted; [|exact Hf].
           apply (verdict_accept_multi B m retracting false ws); auto.
           discriminate.
        -- split; [|exact (outcome_retracted B m retracting _ _ f Hr)].
           rewrite issued_outcome, length_app.
           destruct retracting; unfold retract_moves, recover_moves;
             rewrite ?length_app; cbn [length]; lia.
      * eexists. split; [|split; [discriminate|intros _]].
        -- eapply retract_accepted; [|exact Hf].
           apply (verdict_accept_multi B m retracting false ws); auto.
           discriminate.
        -- split; [|exact (outcome_retracted B m retracting _ _ f Hr)].
           rewrite issued_outcome, length_app.
           destruct retracting; unfold retract_moves, recover_moves;
             rewrite ?length_app; cbn [length]; lia.
    + eexists. split; [|split; [discriminate|intros _]].
      * eapply retract_accepted; [|exact Hf].
        now apply (verdict_accept_single B m retracting swapping).
      * split; [|exact (outcome_retracted B m retracting _ _ f Hr)].
        rewrite issued_outcome, length_app.
        destruct retracting; unfold retract_moves, recover_moves;
          rewrite ?length_app; cbn [length]; lia.
Qed.

Lemma request_is_suppressed_exactly_when_guarded_witness :
  retracted_of plain_retracted !! active_extruder plain_retracted = Some true /\
  (multi_extruder two_extruders = true ->
   retracted_swap_of plain_retracted !! active_extruder plain_retracted
     = Some false) /\
  e_factor (planner plain_retracted) !! active_extruder plain_retracted = Some f32_one /\
  exists m',
    retract two_extruders false false plain_retracted = Some (tt, m') /\
    (guarded two_extruders false false true false = true -> m' = plain_retracted) /\
    (guarded two_extruders false false true false = false ->
     length (issued plain_retracted) < length (issued m') /\
     retracted_of m' !! active_extruder m' = Some false).
Proof.
  split; [vm_compute; reflexivity|].
  split; [intros _; vm_compute; reflexivity|].
  split; [vm_compute; reflexivity|].
  apply (request_is_suppressed_exactly_when_guarded two_extruders plain_retracted
           false false true false f32_one).
  - vm_compute; reflexivity.
  - intros _; vm_compute; reflexivity.
  - vm_compute; reflexivity.
Defined.

(** ** A retract and the recover that follows *)

(** A recover run with the swap flag as its variant leaves that flag
    false. *)
Lemma outcome_recover_swap (B : Build) (m : Machine) (sw : bool) (f : f32) :
  multi_extruder B = true ->
  retracted_swap_of m !! active_extruder m = Some sw ->
  retracted_swap_of (outcome B false sw f m) !! active_extruder m = Some false.
Proof.
  intros Hm Hs. destruct sw.
  - exact (outcome_retracted_swap B m false true f Hm Hs).
  - unfold outcome, retracted_swap_of at 1.
    cbn [fwretract retracted_swap active_extruder].
    now rewrite andb_false_r.
Qed.

(** The filament move of a recover starts at the lowered coordinate,
    whether or not a hop was undone before it. *)
Lemma recover_e_move_start (sw : bool) (f : f32) (m : Machine) :
  axis_get (blk_from (recover_e_move sw f m)) E_AXIS
  = (axis_get (current_position m) E_AXIS
     - (if sw
        then swap_retract_length (cfg m) + swap_retract_recover_length (cfg m)
        else retract_length (cfg m) + retract_recover_length (cfg m))
       * (f32_one / f))%f32.
Proof. unfold recover_e_move. now destruct (f32_truthy (hop_of m)), sw. Qed.

(** X7.  From the recovered state, a retract followed at once by a recover
    that passes the guards queues a filament move back, from the
    coordinate plus the retract length times [1 / f], and a filament move
    forth, from the coordinate minus the sum of retract and recover length
    times [1 / f], both of the same variant and both to the coordinate
    the calls started from; the moves between them carry no filament, and
    the extruder is recovered again.  Where the arithmetic is exact the
    two moves net the recover length over [f]. *)
Theorem retract_then_recover_nets_recover_length
    (B : Build) (m : Machine) (swapping1 swapping2 : bool) (f : f32) :
  retracted_of m !! active_extruder m = Some false ->
  (multi_extruder B = true ->
   retracted_swap_of m !! active_extruder m = Some false) ->
  e_factor (planner m) !! active_extruder m = Some f ->
  (multi_extruder B = true -> swapping2 = true -> swapping1 = true) ->
  let L := if multi_extruder B && swapping1
           then swap_retract_length (cfg m) else retract_length (cfg m) in
  let R := if multi_extruder B && swapping1
           then swap_retract_recover_length (cfg m)
           else retract_recover_length (cfg m) in
  exists m1 m2 back between forth,
    retract B true swapping1 m = Some (tt, m1) /\
    retract B false swapping2 m1 = Some (tt, m2) /\
    issued m2 = issued m ++ back :: between ++ [forth] /\
    Forall (still E_AXIS) between /\
    axis_get (blk_from back) E_AXIS
    = (axis_get (current_position m) E_AXIS + L * (f32_one / f))%f32 /\
    blk_to back = current_position m /\
    axis_get (blk_from forth) E_AXIS
    = (axis_get (current_position m) E_AXIS - (L + R) * (f32_one / f))%f32 /\
    blk_to forth = current_position m /\
    (forall e len rec factor : Q,
       exactly (axis_get (current_position m) E_AXIS) e ->
       exactly L len -> exactly R rec -> exactly f factor ->
       exactly (axis_get (current_position m) E_AXIS + L * (f32_one / f))%f32
               (e + len / factor) ->
       exactly (axis_get (current_position m) E_AXIS - (L + R) * (f32_one / f))%f32
               (e - (len + rec) / factor) ->
       (displacement E_AXIS back + displacement E_AXIS forth == rec / factor)%Q) /\
    retracted_of m2 !! active_extruder m2 = Some false /\
    (multi_extruder B = true ->
     retracted_swap_of m2 !! active_extruder m2 = Some false).
Proof.
  intros Hr Hs Hf Hsw.
  set (sw := multi_extruder B && swapping1).
  intros L R.
  set (m1 := outcome B true sw f m).
  assert (Hv1 : verdict B true swapping1 m = Some (Accepted sw, m))
    by now apply verdict_fresh_retract.
  assert (Hr1 : retracted_of m1 !! active_extruder m1 = Some true)
    by exact (outcome_retracted B m true sw false f Hr).
  assert (Hs1 : multi_extruder B = true ->
                retracted_swap_of m1 !! active_extruder m1 = Some sw).
  { intros Hm. exact (outcome_fresh_swap B m swapping1 f Hm (Hs Hm)). }
  assert (Hv2 : verdict B false swapping2 m1 = Some (Accepted sw, m1)).
  { apply verdict_recover_retracted; auto.
    - unfold sw. now intros ->.
    - unfold sw. intros Hm H2. rewrite Hm, (Hsw Hm H2). reflexivity. }
  assert (Hforth : axis_get (blk_from (recover_e_move sw f m1)) E_AXIS
                   = (axis_get (current_position m) E_AXIS
                      - (L + R) * (f32_one / f))%f32).
  { rewrite recover_e_move_start. unfold L, R. fold sw. now destruct sw. }
  exists m1, (outcome B false sw f m1), (retract_e_move sw f m),
         ((if hops m then [hop_move m] else [])
          ++ (if f32_truthy (hop_of m1) then [hop_undo_move m1] else [])),
         (recover_e_move sw f m1).
  split; [now apply retract_accepted|].
  split; [now apply retract_accepted|].
  split.
  { rewrite issued_outcome. unfold m1 at 1. rewrite issued_outcome.
    unfold retract_moves, recover_moves.
    now rewrite <- !app_assoc. }
  split.
  { apply Forall_app. split.
    - destruct (hops m); [|constructor].
      constructor; [reflexivity|constructor].
    - apply hop_undo_holds_no_filament. }
  split; [reflexivity|]. split; [reflexivity|].
  split; [exact Hforth|]. split; [reflexivity|].
  split.
  { intros e len rec factor He _ _ _ Hback Hfo.
    rewrite (displacement_between E_AXIS (retract_e_move sw f m)
               (e + len / factor) e); [|exact Hback|exact He].
    rewrite (displacement_between E_AXIS (recover_e_move sw f m1)
               (e - (len + rec) / factor) e);
      [|now rewrite Hforth|exact He].
    unfold Qdiv. ring. }
  split.
  - exact (outcome_retracted B m1 false sw true f Hr1).
  - intros Hm. exact (outcome_recover_swap B m1 sw f Hm (Hs1 Hm)).
Qed.

(** A swap retract and a plain recover request on extruder 0. *)
Lemma retract_then_recover_nets_recover_length_witness :
  retracted_of (fresh two_extruders) !! active_extruder (fresh two_extruders)
    = Some false /\
  (multi_extruder two_extruders = true ->
   retracted_swap_of (fresh two_extruders) !! active_extruder (fresh two_extruders)
     = Some false) /\
  e_factor (planner (fresh two_extruders)) !! active_extruder (fresh two_extruders)
    = Some f32_one /\
  (multi_extruder two_extruders = true -> false = true -> true = true) /\
  exists m1 m2 back between forth,
    retract two_extruders true true (fresh two_extruders) = Some (tt, m1) /\
    retract two_extruders false false m1 = Some (tt, m2) /\
    issued m2 = issued (fresh two_extruders) ++ back :: between ++ [forth] /\
    Forall (still E_AXIS) between /\
    axis_get (blk_from back) E_AXIS
    = (f32_of_Z 100 + f32_of_Z 13 * (f32_one / f32_one))%f32 /\
    blk_to back = parked /\
    axis_get (blk_from forth) E_AXIS
    = (f32_of_Z 100 - (f32_of_Z 13 + f32_zero) * (f32_one / f32_one))%f32 /\
    blk_to forth = parked /\
    (forall e len rec factor : Q,
       exactly (f32_of_Z 100) e ->
       exactly (f32_of_Z 13) len -> exactly f32_zero rec ->
       exactly f32_one factor ->
       exactly (f32_of_Z 100 + f32_of_Z 13 * (f32_one / f32_one))%f32
               (e + len / factor) ->
       exactly (f32_of_Z 100 - (f32_of_Z 13 + f32_zero) * (f32_one / f32_one))%f32
               (e - (len + rec) / factor) ->
       (displacement E_AXIS back + displacement E_AXIS forth == rec / factor)%Q) /\
    retracted_of m2 !! active_extruder m2 = Some false /\
    (multi_extruder two_extruders = true ->
     retracted_swap_of m2 !! active_extruder m2 = Some false).
Proof.
  split; [vm_compute; reflexivity|].
  split; [intros _; vm_compute; reflexivity|].
  split; [vm_compute; reflexivity|].
  split; [intros _ _; reflexivity|].
  apply (retract_then_recover_nets_recover_length two_extruders
           (fresh two_extruders) true false f32_one).
  - vm_compute; reflexivity.
  - intros _; vm_compute; reflexivity.
  - vm_compute; reflexivity.
  - intros _ _; reflexivity.
Defined.

(** X8.  The undo of a hop moves by the lift configured when the recover
    runs, not by the lift that was made.  When the lift is set anew
    between a hopping retract and its recover, the carriage is lifted
    from the tracked Z minus the old lift and lowered from the tracked Z
    plus the new lift, each computed in single precision, and the hop
    counts as undone all the same.  Where both are exact the Z
    displacements of the two moves sum to the old lift minus the new
    one: the tracked Z and the carriage are that far apart from then
    on. *)
Theorem lift_changed_before_recover_offsets_Z
    (B : Build) (m : Machine) (swapping1 swapping2 : bool) (f new_lift : f32) :
  retracted_of m !! active_extruder m = Some false ->
  (multi_extruder B = true ->
   retracted_swap_of m !! active_extruder m = Some false) ->
  e_factor (planner m) !! active_extruder m = Some f ->
  f32_is_zero (hop_of m) = true ->
  f32_ltb hundredth (retract_zlift (cfg m)) = true ->
  (multi_extruder B = true -> swapping2 = true -> swapping1 = true) ->
  exists m1 m2 e1 zup zdown e2,
    retract B true swapping1 m = Some (tt, m1) /\
    retract B false swapping2 (configure_zlift new_lift m1) = Some (tt, m2) /\
    issued m2 = issued m ++ [e1; zup; zdown; e2] /\
    blk_from zup
    = axis_set (current_position m) Z_AXIS
        (axis_get (current_position m) Z_AXIS - retract_zlift (cfg m))%f32 /\
    blk_to zup = current_position m /\
    blk_from zdown
    = axis_set (current_position m) Z_AXIS
        (axis_get (current_position m) Z_AXIS + new_lift)%f32 /\
    blk_to zdown = current_position m /\
    still Z_AXIS e2 /\
    current_position m2 = current_position m /\
    hop_of m2 = f32_zero /\
    (forall z old new : Q,
       exactly (axis_get (current_position m) Z_AXIS) z ->
       exactly (axis_get (current_position m) Z_AXIS - retract_zlift (cfg m))%f32
               (z - old) ->
       exactly (axis_get (current_position m) Z_AXIS + new_lift)%f32 (z + new) ->
       (displacement Z_AXIS zup + displacement Z_AXIS zdown == old - new)%Q).
Proof.
  intros Hr Hs Hf Hhop Hz Hsw.
  set (sw := multi_extruder B && swapping1).
  destruct (hop_made_is_pending B m sw f Hhop Hz) as (Hhops & Hmade & Hlift).
  set (m1 := outcome B true sw f m) in *.
  set (m1' := configure_zlift new_lift m1).
  assert (Hhop1 : f32_truthy (hop_of m1') = true).
  { change (hop_of m1') with (hop_of m1). now rewrite Hmade. }
  assert (Hv1 : verdict B true swapping1 m = Some (Accepted sw, m))
    by now apply verdict_fresh_retract.
  assert (Hr1 : retracted_of m1' !! active_extruder m1' = Some true)
    by exact (outcome_retracted B m true sw false f Hr).
  assert (Hs1 : multi_extruder B = true ->
                retracted_swap_of m1' !! active_extruder m1' = Some sw).
  { intros Hm. exact (outcome_fresh_swap B m swapping1 f Hm (Hs Hm)). }
  assert (Hv2 : verdict B false swapping2 m1' = Some (Accepted sw, m1')).
  { apply verdict_recover_retracted; auto.
    - unfold sw. now intros ->.
    - unfold sw. intros Hm H2. rewrite Hm, (Hsw Hm H2). reflexivity. }
  exists m1, (outcome B false sw f m1'),
         (retract_e_move sw f m), (hop_move m),
         (hop_undo_move m1'), (recover_e_move sw f m1').
  split; [now apply retract_accepted|].
  split; [apply retract_accepted; [exact Hv2 | exact Hf]|].
  split.
  { rewrite issued_outcome. change (issued m1') with (issued m1).
    unfold m1 at 1. rewrite issued_outcome.
    unfold retract_moves, recover_moves. rewrite Hhops, Hhop1.
    now rewrite <- app_assoc. }
  split; [reflexivity|]. split; [reflexivity|].
  split; [reflexivity|]. split; [reflexivity|].
  split; [now apply recover_e_move_still_after_undo|].
  split; [reflexivity|].
  split.
  { unfold outcome, hop_of at 1. cbn [fwretract hop_amount]. now rewrite Hhop1. }
  intros z old new Hzv Hup Hdown.
  rewrite (displacement_between Z_AXIS (hop_move m) (z - old) z);
    [|exact Hup|exact Hzv].
  rewrite (displacement_between Z_AXIS (hop_undo_move m1') (z + new) z);
    [ring|exact Hdown|exact Hzv].
Qed.

(** A lift of 0.5 mm made, then set to 0.25 mm. *)
Lemma lift_changed_before_recover_offsets_Z_witness :
  retracted_of (configure_zlift (f32_ratio 1 2) (fresh two_extruders))
    !! active_extruder (configure_zlift (f32_ratio 1 2) (fresh two_extruders))
    = Some false /\
  (multi_extruder two_extruders = true ->
   retracted_swap_of (configure_zlift (f32_ratio 1 2) (fresh two_extruders))
     !! active_extruder (configure_zlift (f32_ratio 1 2) (fresh two_extruders))
     = Some false) /\
  e_factor (planner (configure_zlift (f32_ratio 1 2) (fresh two_extruders)))
    !! active_extruder (configure_zlift (f32_ratio 1 2) (fresh two_extruders))
    = Some f32_one /\
  f32_is_zero (hop_of (configure_zlift (f32_ratio 1 2) (fresh two_extruders)))
    = true /\
  f32_ltb hundredth
    (retract_zlift (cfg (configure_zlift (f32_ratio 1 2) (fresh two_extruders))))
    = true /\
  (multi_extruder two_extruders = true -> false = true -> false = true) /\
  exists m1 m2 e1 zup zdown e2,
    retract two_extruders true false
      (configure_zlift (f32_ratio 1 2) (fresh two_extruders)) = Some (tt, m1) /\
    retract two_extruders false false (configure_zlift (f32_ratio 1 4) m1)
      = Some (tt, m2) /\
    issued m2
    = issued (configure_zlift (f32_ratio 1 2) (fresh two_extruders))
      ++ [e1; zup; zdown; e2] /\
    blk_from zup = axis_set parked Z_AXIS (f32_of_Z 5 - f32_ratio 1 2)%f32 /\
    blk_to zup = parked /\
    blk_from zdown = axis_set parked Z_AXIS (f32_of_Z 5 + f32_ratio 1 4)%f32 /\
    blk_to zdown = parked /\
    still Z_AXIS e2 /\
    current_position m2 = parked /\
    hop_of m2 = f32_zero /\
    (forall z old new : Q,
       exactly (f32_of_Z 5) z ->
       exactly (f32_of_Z 5 - f32_ratio 1 2)%f32 (z - old) ->
       exactly (f32_of_Z 5 + f32_ratio 1 4)%f32 (z + new) ->
       (displacement Z_AXIS zup + displacement Z_AXIS zdown == old - new)%Q).
Proof.
  split; [vm_compute; reflexivity|].
  split; [intros _; vm_compute; reflexivity|].
  split; [vm_compute; reflexivity|].
  split; [vm_compute; reflexivity|].
  split; [vm_compute; reflexivity|].
  split; [intros _ H; exact H|].
  apply (lift_changed_before_recover_offsets_Z two_extruders
           (configure_zlift (f32_ratio 1 2) (fresh two_extruders))
           false false f32_one (f32_ratio 1 4)).
  - vm_compute; reflexivity.
  - intros _; vm_compute; reflexivity.
  - vm_compute; reflexivity.
  - vm_compute; reflexivity.
  - vm_compute; reflexivity.
  - intros _ H; exact H.
Defined.

(** In that run a quarter of a millimetre remains: the carriage is lifted
    by 1/2 and lowered by 1/4. *)
Example lift_halved_leaves_a_quarter :
  exists m1 m2 e1 zup zdown e2,
    retract two_extruders true false
      (configure_zlift (f32_ratio 1 2) (fresh two_extruders)) = Some (tt, m1) /\
    retract two_extruders false false (configure_zlift (f32_ratio 1 4) m1)
      = Some (tt, m2) /\
    issued m2 = [e1; zup; zdown; e2] /\
    (displacement Z_AXIS zup == 1 # 2)%Q /\
    (displacement Z_AXIS zdown == - (1 # 4))%Q /\
    current_position m2 = parked /\
    f32_is_zero (hop_of m2) = true.
Proof.
  do 6 eexists. split; [vm_compute; reflexivity|].
  repeat (split; [vm_compute; reflexivity|]). vm_compute; reflexivity.
Qed.

(** ** [reset] and what follows it *)

(** A list cleared up to its length is all false. *)
Lemma cleared_is_replicate (l l' : list bool) (n : nat) :
  length l = n ->
  (forall k, l' !! k = if (0 <=? k) && (k <? n) then Some false else l !! k) ->
  l' = replicate n false.
Proof.
  intros Hlen H. apply list_eq. intros k. rewrite H. cbn [Nat.leb andb].
  destruct (k <? n) eqn:Hk.
  - apply Nat.ltb_lt in Hk. symmetry. now apply lookup_replicate_2.
  - apply Nat.ltb_ge in Hk. rewrite lookup_ge_None_2 by lia.
    symmetry. apply lookup_replicate_None. lia.
Qed.

(** [reset] in closed form. *)
Lemma reset_closed_form (B : Build) (m : Machine) :
  EXTRUDERS B <= 255 ->
  length (retracted_of m) = EXTRUDERS B ->
  (multi_extruder B = true -> length (retracted_swap_of m) = EXTRUDERS B) ->
  reset B m
  = Some (tt, mkMachine
                (mkFWRetract (reset_settings B)
                   (replicate (EXTRUDERS B) false)
                   (if multi_extruder B then replicate (EXTRUDERS B) false
                    else retracted_swap_of m)
                   (hop_of m))
                (active_extruder m) (feedrate_mm_s m) (current_position m)
                (destination m) (planner m) (stepper_done m)).
Proof.
  destruct m as [[cf rl sl hop] ae fr cur dst pl done].
  cbv [retracted_of retracted_swap_of hop_of fwretract retracted retracted_swap
       hop_amount active_extruder feedrate_mm_s current_position destination
       planner stepper_done].
  intros Hb Hrl Hsl.
  destruct (reset_loop B (reset_settings B) hop ae fr cur dst pl done 257 0 rl sl)
    as (rl' & sl' & Hrun & Hrl' & Hsl'); auto; try lia.
  unfold reset. erewrite run_bind by reflexivity.
  cbv [with_fwretract with_settings fwretract retracted retracted_swap hop_amount
       active_extruder feedrate_mm_s current_position destination planner
       stepper_done].
  rewrite Hrun. do 3 f_equal.
  rewrite (cleared_is_replicate rl rl' (EXTRUDERS B) Hrl Hrl').
  destruct (multi_extruder B); [|now subst sl'].
  now rewrite (cleared_is_replicate sl sl' (EXTRUDERS B) (Hsl eq_refl) Hsl').
Qed.

(** X12.  [reset] forgets the flags it finds and is idempotent: a second
    reset right after the first changes nothing, and every extruder's
    [retracted] flag (with several extruders also its [retracted_swap]
    flag) is false whatever it was before. *)
Theorem reset_is_idempotent (B : Build) (m : Machine) :
  EXTRUDERS B <= 255 ->
  length (retracted_of m) = EXTRUDERS B ->
  (multi_extruder B = true -> length (retracted_swap_of m) = EXTRUDERS B) ->
  exists m',
    reset B m = Some (tt, m') /\
    reset B m' = Some (tt, m') /\
    retracted_of m' = replicate (EXTRUDERS B) false /\
    (multi_extruder B = true ->
     retracted_swap_of m' = replicate (EXTRUDERS B) false).
Proof.
  intros Hb Hrl Hsl. eexists. split; [now apply reset_closed_form|].
  split; [|split; [reflexivity|]].
  - rewrite reset_closed_form; auto.
    + cbv [retracted_swap_of hop_of fwretract retracted_swap hop_amount
           active_extruder feedrate_mm_s current_position destination planner
           stepper_done].
      now destruct (multi_extruder B).
    + apply length_replicate.
    + intros Hm. unfold retracted_swap_of. cbn [fwretract retracted_swap].
      rewrite Hm. apply length_replicate.
  - intros Hm. unfold retracted_swap_of. cbn [fwretract retracted_swap].
    now rewrite Hm.
Qed.

Lemma reset_is_idempotent_witness :
  EXTRUDERS two_extruders <= 255 /\
  length (retracted_of swap_retracted) = EXTRUDERS two_extruders /\
  (multi_extruder two_extruders = true ->
   length (retracted_swap_of swap_retracted) = EXTRUDERS two_extruders) /\
  exists m',
    reset two_extruders swap_retracted = Some (tt, m') /\
    reset two_extruders m' = Some (tt, m') /\
    retracted_of m' = replicate (EXTRUDERS two_extruders) false /\
    (multi_extruder two_extruders = true ->
     retracted_swap_of m' = replicate (EXTRUDERS two_extruders) false).
Proof.
  split; [vm_compute; lia|].
  split; [vm_compute; reflexivity|].
  split; [intros _; vm_compute; reflexivity|].
  apply (reset_is_idempotent two_extruders swap_retracted).
  - vm_compute; lia.
  - vm_compute; reflexivity.
  - intros _; vm_compute; reflexivity.
Defined.

(** X11.  After [reset], on whichever extruder is active, every recover
    request is ignored and every retract request passes the guards, as a
    swap retract exactly when a swap is asked for and there are several
    extruders. *)
Theorem reset_then_requests (B : Build) (m : Machine) :
  EXTRUDERS B <= 255 ->
  length (retracted_of m) = EXTRUDERS B ->
  (multi_extruder B = true -> length (retracted_swap_of m) = EXTRUDERS B) ->
  active_extruder m < EXTRUDERS B ->
  exists m',
    reset B m = Some (tt, m') /\
    (forall swapping, retract B false swapping m' = Some (tt, m')) /\
    (forall swapping,
       verdict B true swapping m'
       = Some (Accepted (multi_extruder B && swapping), m')).
Proof.
  intros Hb Hrl Hsl Hae. eexists. split; [now apply reset_closed_form|].
  assert (Hflag : forall n, active_extruder m < n ->
                    replicate n false !! active_extruder m = Some false)
    by (intros n Hn; now apply lookup_replicate_2).
  split; intros swapping.
  - apply retract_suppressed, verdict_same.
    unfold retracted_of. cbn [fwretract retracted active_extruder]. auto.
  - apply verdict_fresh_retract.
    + unfold retracted_of. cbn [fwretract retracted active_extruder]. auto.
    + intros Hm. unfold retracted_swap_of.
      cbn [fwretract retracted_swap active_extruder]. rewrite Hm. auto.
Qed.

Lemma reset_then_requests_witness :
  EXTRUDERS two_extruders <= 255 /\
  length (retracted_of swap_retracted) = EXTRUDERS two_extruders /\
  (multi_extruder two_extruders = true ->
   length (retracted_swap_of swap_retracted) = EXTRUDERS two_extruders) /\
  active_extruder swap_retracted < EXTRUDERS two_extruders /\
  exists m',
    reset two_extruders swap_retracted = Some (tt, m') /\
    (forall swapping, retract two_extruders false swapping m' = Some (tt, m')) /\
    (forall swapping,
       verdict two_extruders true swapping m'
       = Some (Accepted (multi_extruder two_extruders && swapping), m')).
Proof.
  split; [vm_compute; lia|].
  split; [vm_compute; reflexivity|].
  split; [intros _; vm_compute; reflexivity|].
  split; [vm_compute; lia|].
  apply (reset_then_requests two_extruders swap_retracted).
  - vm_compute; lia.
  - vm_compute; reflexivity.
  - intros _; vm_compute; reflexivity.
  - vm_compute; lia.
Defined.

(** ** Invariants of operation *)

Lemma retract_keeps_well_formed
    (B : Build) (m m' : Machine) (retracting swapping : bool) :
  retract B retracting swapping m = Some (tt, m') ->
  well_formed B m -> well_formed B m'.
Proof.
  intros H (Hae & Hr & Hs & Hf).
  apply retract_inv in H as [[_ ->]|(sw & f & _ & _ & ->)];
    [now repeat split|].
  unfold well_formed, outcome, retracted_of, retracted_swap_of.
  cbn [fwretract retracted retracted_swap active_extruder planner e_factor].
  split; [exact Hae|]. split; [now rewrite length_insert|].
  split; [|exact Hf].
  intros Hm. destruct (multi_extruder B && sw); rewrite ?length_insert; auto.
Qed.

Lemma reset_keeps_invariants (B : Build) (m m' : Machine) :
  EXTRUDERS B <= 255 ->
  reset B m = Some (tt, m') ->
  well_formed B m ->
  well_formed B m' /\ swap_within_retracted B m'.
Proof.
  intros Hb H (Hae & Hr & Hs & Hf).
  rewrite reset_closed_form in H by assumption. injection H as <-.
  unfold well_formed, swap_within_retracted, retracted_of, retracted_swap_of.
  cbn [fwretract retracted retracted_swap active_extruder planner e_factor].
  split.
  - split; [exact Hae|]. split; [apply length_replicate|]. split; [|exact Hf].
    intros Hm. rewrite Hm. apply length_replicate.
  - intros Hm i. rewrite Hm. intros Hi.
    apply lookup_replicate in Hi as [Hi _]. discriminate.
Qed.

(** X1.  While the firmware operates (resets, retract and recover requests
    of either kind, tool changes) the arrays keep their size, the active
    extruder stays one of them, and no extruder has its [retracted_swap]
    flag set without its [retracted] flag: of the four flag combinations
    only recovered, retracted and swap-retracted occur. *)
Theorem operation_keeps_flags_consistent (B : Build) (m m' : Machine) :
  EXTRUDERS B <= 255 ->
  well_formed B m ->
  swap_within_retracted B m ->
  operates B m m' ->
  well_formed B m' /\ swap_within_retracted B m'.
Proof.
  intros Hb Hwf Hinv Hrun.
  induction Hrun as [m | m m1 m2 Hreset _ IH
                    | m m1 m2 retracting swapping Hcall _ IH
                    | m m2 e He _ IH].
  - now split.
  - destruct (reset_keeps_invariants B m m1 Hb Hreset Hwf). now apply IH.
  - apply IH.
    + exact (retract_keeps_well_formed B m m1 _ _ Hcall Hwf).
    + exact (retract_keeps_swap_within_retracted B m m1 _ _ Hcall Hinv).
  - apply IH; [|exact Hinv].
    destruct Hwf as (_ & Hr & Hs & Hf). now repeat split.
Qed.

(** A swap retract on extruder 0, a tool change, a plain retract on
    extruder 1, a recover on extruder 1. *)
Lemma operation_keeps_flags_consistent_witness :
  EXTRUDERS two_extruders <= 255 /\
  well_formed two_extruders (fresh two_extruders) /\
  swap_within_retracted two_extruders (fresh two_extruders) /\
  exists m',
    operates two_extruders (fresh two_extruders) m' /\
    retracted_of m' = [true; false] /\
    retracted_swap_of m' = [true; false] /\
    well_formed two_extruders m' /\
    swap_within_retracted two_extruders m'.
Proof.
  assert (Hwf : well_formed two_extruders (fresh two_extruders)).
  { split; [vm_compute; lia|].
    split; [vm_compute; reflexivity|].
    split; [intros _; vm_compute; reflexivity|].
    vm_compute; reflexivity. }
  assert (Hinv : swap_within_retracted two_extruders (fresh two_extruders)).
  { intros _ [|[|i]]; vm_compute; intros E; discriminate E. }
  split; [vm_compute; lia|]. split; [exact Hwf|]. split; [exact Hinv|].
  set (m1 := outcome two_extruders true true f32_one (fresh two_extruders)).
  set (m2 := outcome two_extruders true false (f32_ratio 1 2) (select_extruder 1 m1)).
  set (m3 := outcome two_extruders false false (f32_ratio 1 2) m2).
  assert (Hrun : operates two_extruders (fresh two_extruders) m3).
  { apply operates_retract with (m1 := m1) (retracting := true) (swapping := true);
      [vm_compute; reflexivity|].
    apply operates_tool_change with (e := 1); [vm_compute; lia|].
    apply operates_retract with (m1 := m2) (retracting := true) (swapping := false);
      [vm_compute; reflexivity|].
    apply operates_retract with (m1 := m3) (retracting := false) (swapping := false);
      [vm_compute; reflexivity|].
    apply operates_done. }
  exists m3. split; [exact Hrun|].
  split; [vm_compute; reflexivity|]. split; [vm_compute; reflexivity|].
  apply (operation_keeps_flags_consistent two_extruders (fresh two_extruders) m3);
    [vm_compute; lia | exact Hwf | exact Hinv | exact Hrun].
Defined.

(** ** One hop for all extruders *)

(** X9.  [hop_amount] is one variable for all extruders.  With two
    extruders retracted and a hop pending, the recover of the active one
    undoes the hop, whoever made it, and the recover of the other one
    after a tool change moves filament only: three moves in all, one of
    them in Z, from the tracked Z plus the configured lift down to the
    tracked Z. *)
Theorem hop_is_undone_by_first_recover
    (B : Build) (m : Machine) (other : nat) (ws ws' : bool) (f f' : f32) :
  multi_extruder B = true ->
  other <> active_extruder m ->
  retracted_of m !! active_extruder m = Some true ->
  retracted_of m !! other = Some true ->
  retracted_swap_of m !! active_extruder m = Some ws ->
  retracted_swap_of m !! other = Some ws' ->
  e_factor (planner m) !! active_extruder m = Some f ->
  e_factor (planner m) !! other = Some f' ->
  f32_truthy (hop_of m) = true ->
  exists m1 m2 zmove emove emove',
    retract B false false m = Some (tt, m1) /\
    retract B false false (select_extruder other m1) = Some (tt, m2) /\
    issued m2 = issued m ++ [zmove; emove; emove'] /\
    blk_from zmove
    = axis_set (current_position m) Z_AXIS
        (axis_get (current_position m) Z_AXIS + retract_zlift (cfg m))%f32 /\
    blk_to zmove = current_position m /\
    still Z_AXIS emove /\
    still Z_AXIS emove' /\
    blk_extruder zmove = active_extruder m /\
    blk_extruder emove = active_extruder m /\
    blk_extruder emove' = other /\
    hop_of m2 = f32_zero.
Proof.
  intros Hm Hne Hr Hr' Hs Hs' Hf Hf' Hhop.
  set (m1 := outcome B false ws f m).
  set (m1' := select_extruder other m1).
  assert (Hv1 : verdict B false false m = Some (Accepted ws, m)).
  { apply verdict_recover_retracted; auto; [congruence|discriminate]. }
  assert (Hzero : hop_of m1' = f32_zero).
  { change (hop_of m1')
      with (if f32_truthy (hop_of m) then f32_zero else hop_of m).
    now rewrite Hhop. }
  assert (Hhop1 : f32_truthy (hop_of m1') = false) by now rewrite Hzero.
  assert (Hr1 : retracted_of m1' !! active_extruder m1' = Some true).
  { change (<[active_extruder m:=false]> (retracted_of m) !! other = Some true).
    now rewrite list_lookup_insert_ne by congruence. }
  assert (Hs1 : retracted_swap_of m1' !! active_extruder m1' = Some ws').
  { change ((if multi_extruder B && ws
              then <[active_extruder m:=false]> (retracted_swap_of m)
              else retracted_swap_of m) !! other = Some ws').
    destruct (multi_extruder B && ws); [|exact Hs'].
    now rewrite list_lookup_insert_ne by congruence. }
  assert (Hv2 : verdict B false false m1' = Some (Accepted ws', m1')).
  { apply verdict_recover_retracted; auto; [congruence|discriminate]. }
  exists m1, (outcome B false ws' f' m1'),
         (hop_undo_move m), (recover_e_move ws f m), (recover_e_move ws' f' m1').
  split; [now apply retract_accepted|].
  split; [now apply retract_accepted|].
  split.
  { rewrite issued_outcome. change (issued m1') with (issued m1).
    unfold m1 at 1. rewrite issued_outcome.
    unfold recover_moves. rewrite Hhop, Hhop1. now rewrite <- app_assoc. }
  split; [reflexivity|]. split; [reflexivity|].
  split; [now apply recover_e_move_still_after_undo|].
  split.
  { unfold still, recover_e_move. rewrite Hhop1. reflexivity. }
  split; [reflexivity|]. split; [reflexivity|]. split; [reflexivity|].
  change (hop_of (outcome B false ws' f' m1'))
    with (if f32_truthy (hop_of m1') then f32_zero else hop_of m1').
  now rewrite Hhop1.
Qed.

(** Both extruders retracted, extruder 1 active, one hop pending. *)
Lemma hop_is_undone_by_first_recover_witness :
  multi_extruder two_extruders = true /\
  0 <> active_extruder both_retracted /\
  retracted_of both_retracted !! active_extruder both_retracted = Some true /\
  retracted_of both_retracted !! 0 = Some true /\
  retracted_swap_of both_retracted !! active_extruder both_retracted = Some false /\
  retracted_swap_of both_retracted !! 0 = Some false /\
  e_factor (planner both_retracted) !! active_extruder both_retracted
    = Some (f32_ratio 1 2) /\
  e_factor (planner both_retracted) !! 0 = Some f32_one /\
  f32_truthy (hop_of both_retracted) = true /\
  exists m1 m2 zmove emove emove',
    retract two_extruders false false both_retracted = Some (tt, m1) /\
    retract two_extruders false false (select_extruder 0 m1) = Some (tt, m2) /\
    issued m2 = issued both_retracted ++ [zmove; emove; emove'] /\
    blk_from zmove = axis_set parked Z_AXIS (f32_of_Z 5 + f32_ratio 2 5)%f32 /\
    blk_to zmove = parked /\
    still Z_AXIS emove /\
    still Z_AXIS emove' /\
    blk_extruder zmove = active_extruder both_retracted /\
    blk_extruder emove = active_extruder both_retracted /\
    blk_extruder emove' = 0 /\
    hop_of m2 = f32_zero.
Proof.
  split; [vm_compute; reflexivity|].
  split; [vm_compute; discriminate|].
  split; [vm_compute; reflexivity|].
  split; [vm_compute; reflexivity|].
  split; [vm_compute; reflexivity|].
  split; [vm_compute; reflexivity|].
  split; [vm_compute; reflexivity|].
  split; [vm_compute; reflexivity|].
  split; [vm_compute; reflexivity|].
  apply (hop_is_undone_by_first_recover two_extruders both_retracted 0
           false false (f32_ratio 1 2) f32_one).
  - vm_compute; reflexivity.
  - vm_compute; discriminate.
  - vm_compute; reflexivity.
  - vm_compute; reflexivity.
  - vm_compute; reflexivity.
  - vm_compute; reflexivity.
  - vm_compute; reflexivity.
  - vm_compute; reflexivity.
  - vm_compute; reflexivity.
Defined.
